(** * configure_booster.py: interactive WiFi override and brain configuration tool

    A shallow embedding of [scripts/configure_booster.py].  The Python
    program shells out to [nmcli], [ip], [cat], [ping] and [id], parses
    their text output with the built-in [str] methods, and patches a YAML
    file line by line.  The embedding has three layers:

    - [Py]: the [str] methods the script relies on, on 8-bit characters;
    - the program itself, in a small state-and-exception monad over a
      [World] that holds the YAML file, the console input still to be
      read, the global [config] object and a chronological event log;
    - the properties of the program.

    Text is modelled on Rocq's [string] (a list of 8-bit characters);
    characters outside ASCII are carried through unchanged and are
    neither white space nor cased, and decoding and encoding of the file
    are taken to be the identity on them.  On ASCII text the methods of
    [Py] are Python's.  Outside ASCII Python knows further blanks
    (U+0085, U+00A0, U+2000 to U+200A, U+3000, ...), further line
    boundaries (U+0085, U+2028, U+2029), further digits and further
    cased letters; a property that reads text from the operator or from
    a listing through [strip], [split], [splitlines], [lower],
    [isdigit] or [int] therefore carries [isascii] of that text as a
    hypothesis, unless its other hypotheses already pin the text down.
    The external programs are taken to exist: starting one always
    yields an exit status and its captured output. *)

From Stdlib Require Import String Ascii List ZArith Bool Arith Lia.
From Stdlib Require Import DecimalString.
Import ListNotations.
Open Scope list_scope.
Open Scope string_scope.
Open Scope nat_scope.

(* ===================================================================== *)
(** ** Python [str] methods *)
(* ===================================================================== *)

Module Py.

Definition LF : ascii := "010"%char.
Definition CR : ascii := "013"%char.
Definition nl : string := String LF "".

(** [s.startswith(p)] *)
Fixpoint startswith (p s : string) : bool :=
  match p with
  | "" => true
  | String a p' =>
      match s with
      | "" => false
      | String b s' => Ascii.eqb a b && startswith p' s'
      end
  end.

(** [needle in hay] *)
Fixpoint contains (needle hay : string) : bool :=
  startswith needle hay
  || match hay with
     | "" => false
     | String _ hay' => contains needle hay'
     end.

(** [s.isascii()]: every character is below 128. *)
Fixpoint isascii (s : string) : bool :=
  match s with
  | "" => true
  | String c s' => (nat_of_ascii c <? 128) && isascii s'
  end.

(** [c.isspace()] on the ASCII range: TAB, LF, VT, FF, CR, the four
    separators FS, GS, RS, US, and the blank.  The blanks Python knows
    outside ASCII are not blanks here. *)
Definition isspace (c : ascii) : bool :=
  let n := nat_of_ascii c in
  ((9 <=? n) && (n <=? 13)) || ((28 <=? n) && (n <=? 32)).

(** [s.lstrip()] *)
Fixpoint lstrip (s : string) : string :=
  match s with
  | "" => ""
  | String c s' => if isspace c then lstrip s' else s
  end.

(** [s.rstrip()] *)
Fixpoint rstrip (s : string) : string :=
  match s with
  | "" => ""
  | String c s' =>
      match rstrip s' with
      | "" => if isspace c then "" else String c ""
      | r => String c r
      end
  end.

(** [s.strip()] *)
Definition strip (s : string) : string := rstrip (lstrip s).

(** [s.lower()] on the ASCII range: the letters Python lowers outside
    ASCII (U+212A to [k] among them) are kept as they are. *)
Definition lower_char (c : ascii) : ascii :=
  let n := nat_of_ascii c in
  if (65 <=? n) && (n <=? 90) then ascii_of_nat (n + 32) else c.

Fixpoint lower (s : string) : string :=
  match s with
  | "" => ""
  | String c s' => String (lower_char c) (lower s')
  end.

(** [s.split()]: the maximal runs of non-blank characters.  [cur] is
    the token being read. *)
Fixpoint split_go (cur s : string) : list string :=
  match s with
  | "" => if String.eqb cur "" then [] else [cur]
  | String c s' =>
      if isspace c
      then (if String.eqb cur "" then split_go "" s'
            else cur :: split_go "" s')
      else split_go (cur ++ String c "") s'
  end.

Definition split (s : string) : list string := split_go "" s.

(** [s.split(sep)] for a one-character separator: empty fields are
    kept, and the result is never empty. *)
Fixpoint split_on (sep : ascii) (s : string) : list string :=
  match s with
  | "" => [""]
  | String c s' =>
      if Ascii.eqb c sep then "" :: split_on sep s'
      else match split_on sep s' with
           | [] => [String c ""]
           | h :: t => String c h :: t
           end
  end.

(** [s.split(sep, 1)] for a one-character separator. *)
Fixpoint split_on_1 (sep : ascii) (s : string) : list string :=
  match s with
  | "" => [""]
  | String c s' =>
      if Ascii.eqb c sep then [""; s']
      else match split_on_1 sep s' with
           | [] => [String c ""]
           | h :: t => String c h :: t
           end
  end.

(** The line boundaries of [str.splitlines] on the ASCII range: LF, VT,
    FF, CR, FS, GS, RS (and CR LF, which counts once).  The boundaries
    U+0085, U+2028 and U+2029 are not boundaries here. *)
Definition islinebreak (c : ascii) : bool :=
  let n := nat_of_ascii c in
  ((10 <=? n) && (n <=? 13)) || ((28 <=? n) && (n <=? 30)).

(** [s.splitlines()]: line ends are dropped, and a final line end opens
    no further line. *)
Fixpoint splitlines_go (cur s : string) : list string :=
  match s with
  | "" => if String.eqb cur "" then [] else [cur]
  | String c s' =>
      if islinebreak c
      then cur :: (if Ascii.eqb c CR
                   then match s' with
                        | String d s'' =>
                            if Ascii.eqb d LF then splitlines_go "" s''
                            else splitlines_go "" s'
                        | "" => splitlines_go "" s'
                        end
                   else splitlines_go "" s')
      else splitlines_go (cur ++ String c "") s'
  end.

Definition splitlines (s : string) : list string := splitlines_go "" s.

(** [sep.join(l)] *)
Definition join (sep : string) (l : list string) : string :=
  String.concat sep l.

(** [x in l] for a list of strings. *)
Definition in_list (x : string) (l : list string) : bool :=
  existsb (String.eqb x) l.

(** [s.isdigit()] and [int(s)] on ASCII decimal digits.  Python's
    [isdigit] also holds of digits outside ASCII, on some of which [int]
    raises [ValueError]; and from Python 3.11 on [int] raises
    [ValueError] on more than 4300 digits.  [int] below is total: it is
    Python's on an ASCII digit string of at most 4300 characters. *)
Definition isdigit_char (c : ascii) : bool :=
  let n := nat_of_ascii c in (48 <=? n) && (n <=? 57).

Fixpoint all_digits (s : string) : bool :=
  match s with
  | "" => true
  | String c s' => isdigit_char c && all_digits s'
  end.

Definition isdigit (s : string) : bool :=
  negb (String.eqb s "") && all_digits s.

Fixpoint int_go (acc : nat) (s : string) : nat :=
  match s with
  | "" => acc
  | String c s' => int_go (10 * acc + (nat_of_ascii c - 48)) s'
  end.

Definition int (s : string) : nat := int_go 0 s.

(** [str(n)] for a natural number. *)
Definition str_nat (n : nat) : string :=
  NilEmpty.string_of_uint (Nat.to_uint n).

(** [c * n] *)
Fixpoint repeat_str (c : string) (n : nat) : string :=
  match n with
  | O => ""
  | S n' => c ++ repeat_str c n'
  end.

(** Text-mode input, [open(path, "r")] with the default [newline=None]
    (universal newlines): a line of the file may end in LF, CR or CR LF,
    and each of these ends is handed to the program as LF.  On output,
    with the same default, LF is written as [os.linesep], which is LF on
    the Linux hosts the script runs on. *)
Fixpoint universal_newlines (s : string) : string :=
  match s with
  | "" => ""
  | String c s' =>
      if Ascii.eqb c CR
      then String LF match s' with
                     | String d s'' =>
                         if Ascii.eqb d LF then universal_newlines s''
                         else universal_newlines s'
                     | "" => universal_newlines s'
                     end
      else String c (universal_newlines s')
  end.

(** [f.readlines()] and [for line in f] on the text handed over: the
    lines keep their LF, and only the last one can lack it. *)
Fixpoint readlines (s : string) : list string :=
  match s with
  | "" => []
  | String c s' =>
      if Ascii.eqb c LF then String c "" :: readlines s'
      else match readlines s' with
           | [] => [String c ""]
           | l :: ls => String c l :: ls
           end
  end.

End Py.

Import Py.

(* ===================================================================== *)
(** ** Data model *)
(* ===================================================================== *)

(** [WifiConfig]: the dataclass of desired WiFi settings.  Every field is
    a [str]; nothing validates them. *)
Record WifiConfig : Type := mkWifiConfig {
  ssid : string;
  interface : string;
  ip : string;
  subnet : string;
  gateway : string;
  password : string;
  dns : string
}.

(** What [subprocess.run(..., capture_output=True, text=True)] hands back;
    a [CalledProcessError] carries the same three attributes. *)
Record CompletedProcess : Type := mkCompletedProcess {
  returncode : Z;
  stdout : string;
  stderr : string
}.

(** The exceptions the script can let escape. *)
Inductive Exn : Type :=
| ValueError
| IndexError
| EOFError
| SystemExit (code : Z).

(** What the outside can observe, in the order it happens. *)
Inductive Event : Type :=
| EvPrint (text : string)          (* print(text) *)
| EvInput (prompt : string)        (* input(prompt) *)
| EvRun (cmd : list string)        (* an external command is started *)
| EvTruncate                       (* open(config.yaml, "w") *)
| EvWrite (text : string).         (* f.write(text) on config.yaml *)

(** The state the script runs in: the bytes of
    [../src/brain/config/config.yaml], the console lines not yet read, the
    module-level [config] object, the number of external commands started
    so far, and the log. *)
Record World : Type := mkWorld {
  config_yaml : string;
  stdin : list string;
  config : WifiConfig;
  calls : nat;
  log : list Event
}.

Inductive Outcome (A : Type) : Type :=
| Ret (a : A)          (* the call returns *)
| Exc (e : Exn)        (* an exception escapes *)
| Timeout.             (* the embedding's loop bound is used up *)
Arguments Ret {A} a.
Arguments Exc {A} e.
Arguments Timeout {A}.

Definition M (A : Type) : Type := World -> Outcome A * World.

Definition ret {A : Type} (a : A) : M A := fun w => (Ret a, w).

Definition raise {A : Type} (e : Exn) : M A := fun w => (Exc e, w).

Definition bind {A B : Type} (m : M A) (f : A -> M B) : M B :=
  fun w =>
    match m w with
    | (Ret a, w') => f a w'
    | (Exc e, w') => (Exc e, w')
    | (Timeout, w') => (Timeout, w')
    end.

Notation "x <- m ;; k" := (bind m (fun x => k))
  (at level 61, m at next level, right associativity).
Notation "m ;; k" := (bind m (fun _ => k))
  (at level 61, right associativity).

Fixpoint for_each {A : Type} (l : list A) (body : A -> M unit) : M unit :=
  match l with
  | [] => ret tt
  | x :: l' => body x ;; for_each l' body
  end.

(** [for i, x in enumerate(l, i0)] *)
Fixpoint for_each_enum {A : Type} (i0 : nat) (l : list A)
  (body : nat -> A -> M unit) : M unit :=
  match l with
  | [] => ret tt
  | x :: l' => body i0 x ;; for_each_enum (S i0) l' body
  end.

Definition emit (e : Event) : M unit :=
  fun w => (Ret tt, mkWorld (config_yaml w) (stdin w) (config w) (calls w)
                            (log w ++ [e])%list).

Definition print (text : string) : M unit := emit (EvPrint text).

(** [input(prompt)]: the next console line, or [EOFError]. *)
Definition input (prompt : string) : M string :=
  emit (EvInput prompt) ;;
  fun w =>
    match stdin w with
    | [] => (Exc EOFError, w)
    | l :: rest =>
        (Ret l, mkWorld (config_yaml w) rest (config w) (calls w) (log w))
    end.

Definition get_config : M WifiConfig := fun w => (Ret (config w), w).

Definition set_config (c : WifiConfig) : M unit :=
  fun w => (Ret tt, mkWorld (config_yaml w) (stdin w) c (calls w) (log w)).

(** [open(config.yaml, "r")] then [f.readlines()].  The file is taken to
    exist and to decode in the locale of the host; where it does not,
    [open] or the read raises before anything is written. *)
Definition read_config_lines : M (list string) :=
  fun w => (Ret (readlines (universal_newlines (config_yaml w))), w).

(** [open(config.yaml, "w")]: the file is emptied. *)
Definition open_config_w : M unit :=
  emit EvTruncate ;;
  fun w => (Ret tt, mkWorld "" (stdin w) (config w) (calls w) (log w)).

(** [f.write(text)]: on Linux the text goes out as it is. *)
Definition f_write (text : string) : M unit :=
  emit (EvWrite text) ;;
  fun w => (Ret tt, mkWorld (config_yaml w ++ text) (stdin w) (config w)
                            (calls w) (log w)).

Definition truthy (s : string) : bool := negb (String.eqb s "").

Definition banner : string := repeat_str "=" 50.

(* ===================================================================== *)
(** ** The script *)
(* ===================================================================== *)

Section Script.

(** The outside world: what the [n]-th external command started by the
    script answers, given its argument vector.  Any behaviour of
    [nmcli] and friends, history-dependent or not, is some [sys]. *)
Variable sys : nat -> list string -> CompletedProcess.

(** [str(e)] of a [subprocess.CalledProcessError] for a command and its
    exit status (Python's library, not this script). *)
Variable CalledProcessError_str : list string -> Z -> string.

(** [subprocess.run(cmd, capture_output=True, text=True)] *)
Definition subprocess_run (cmd : list string) : M CompletedProcess :=
  fun w =>
    (Ret (sys (calls w) cmd),
     mkWorld (config_yaml w) (stdin w) (config w) (S (calls w))
             (log w ++ [EvRun cmd])%list).

(** [run_command]: with [check] a non-zero exit status raises inside,
    is reported, and the exception object is returned in place of the
    result; the caller reads [returncode] and [stdout] off either. *)
Definition run_command (cmd : list string) (check : bool)
  : M CompletedProcess :=
  result <- subprocess_run cmd ;;
  if check && negb (returncode result =? 0)%Z
  then print ("Error running command " ++ join " " cmd ++ ": "
              ++ CalledProcessError_str cmd (returncode result)) ;;
       ret result
  else ret result.

Definition check_interface_exists (interface : string) : M bool :=
  result <- run_command ["nmcli"; "device"; "show"; interface] false ;;
  ret (returncode result =? 0)%Z.

(** Loop body of [get_available_interfaces]. *)
Definition interfaces_step (interfaces : list string) (line : string)
  : list string :=
  if truthy (strip line) && contains "wifi" (lower line)
  then let parts := split line in
       if 1 <=? List.length parts
       then let interface_name := nth 0 parts "" in
            if truthy interface_name
               && negb (startswith "DEVICE" interface_name)
            then (interfaces ++ [interface_name])%list
            else interfaces
       else interfaces
  else interfaces.

Definition get_available_interfaces : M (list string) :=
  result <- run_command ["nmcli"; "device"] false ;;
  if negb (returncode result =? 0)%Z then ret []
  else ret (fold_left interfaces_step (splitlines (stdout result)) []).

(** Loop body of [get_available_networks]. *)
Definition networks_step (networks : list string) (line : string)
  : list string :=
  if truthy (strip line) && negb (startswith "IN-USE" line)
  then let parts := split line in
       if 2 <=? List.length parts
       then let ssid := nth 1 parts "" in
            if negb (in_list ssid networks) && negb (String.eqb ssid "SSID")
            then (networks ++ [ssid])%list
            else networks
       else networks
  else networks.

(** The parsing part of [get_available_networks], on the listing text. *)
Definition parse_networks (listing : string) : list string :=
  fold_left networks_step (splitlines listing) [].

Definition get_available_networks : M (list string) :=
  result <- run_command ["nmcli"; "device"; "wifi"; "list"] false ;;
  if negb (returncode result =? 0)%Z then ret []
  else ret (parse_networks (stdout result)).

Definition disconnect_current (config : WifiConfig) : M unit :=
  print ("Disconnecting from current WiFi on " ++ interface config
         ++ "...") ;;
  _ <- run_command ["nmcli"; "device"; "disconnect"; interface config]
                   false ;;
  ret tt.

Definition create_connection (config : WifiConfig) : M bool :=
  print ("Creating connection to " ++ ssid config ++ " with static IP "
         ++ ip config ++ "/" ++ subnet config ++ "...") ;;
  _ <- run_command ["nmcli"; "connection"; "delete"; ssid config] false ;;
  let cmd :=
    ["nmcli"; "connection"; "add";
     "type"; "wifi";
     "con-name"; ssid config;
     "ifname"; interface config;
     "ssid"; ssid config;
     "ip4"; ip config ++ "/" ++ subnet config;
     "gw4"; gateway config;
     "ipv4.dns"; dns config;
     "ipv4.method"; "manual"] in
  result <- run_command cmd true ;;
  if negb (returncode result =? 0)%Z
  then print "Failed to create connection" ;; ret false
  else
    (if truthy (password config)
     then print "Setting WiFi password..." ;;
          _ <- run_command ["nmcli"; "connection"; "modify"; ssid config;
                            "wifi-sec.key-mgmt"; "wpa-psk";
                            "wifi-sec.psk"; password config] true ;;
          ret tt
     else ret tt) ;;
    ret true.

Definition activate_connection (config : WifiConfig) : M bool :=
  print ("Activating connection to " ++ ssid config ++ "...") ;;
  result <- run_command ["nmcli"; "connection"; "up"; ssid config] true ;;
  ret (returncode result =? 0)%Z.

(** The search loop of the IP check: some line holds both ["inet "] and
    the expected ["ip/subnet"] text. *)
Definition found_correct_ip (expected_ip_subnet : string)
  (lines : list string) : bool :=
  existsb (fun line => contains "inet " line
                       && contains expected_ip_subnet line) lines.

(** The search loop of the SSID check: the first line that holds
    [" <interface> "] and a star and has two tokens gives the SSID. *)
Fixpoint find_connected_ssid (interface : string) (lines : list string)
  : option string :=
  match lines with
  | [] => None
  | line :: rest =>
      if contains (" " ++ interface ++ " ") line && contains "*" line
      then let parts := split line in
           if 2 <=? List.length parts then Some (nth 1 parts "")
           else find_connected_ssid interface rest
      else find_connected_ssid interface rest
  end.

(** [connected_ssid == config.ssid], where [connected_ssid] may be
    [None]. *)
Definition ssid_eq (connected_ssid : option string) (s : string) : bool :=
  match connected_ssid with
  | Some c => String.eqb c s
  | None => false
  end.

(** [f"{connected_ssid}"] *)
Definition str_opt (o : option string) : string :=
  match o with
  | Some s => s
  | None => "None"
  end.

Definition print_lines_where (p : string -> bool) (text : string)
  : M unit :=
  for_each (splitlines text)
    (fun line => if p line then print ("  " ++ strip line) else ret tt).

Definition verify_connection (config : WifiConfig) : M bool :=
  print "Verifying configuration..." ;;
  let all_good := true in
  (* Check if connection is active *)
  result <- run_command ["nmcli"; "connection"; "show"; "--active"] true ;;
  all_good <-
    (if negb (contains (ssid config) (stdout result))
     then print ("✗ Connection '" ++ ssid config ++ "' is not active") ;;
          ret false
     else print ("✓ Connection '" ++ ssid config ++ "' is active") ;;
          ret all_good) ;;
  (* Check IP address and subnet *)
  result <- run_command ["ip"; "addr"; "show"; interface config] true ;;
  all_good <-
    (if negb (returncode result =? 0)%Z
     then print ("✗ Could not get IP information for "
                 ++ interface config) ;;
          ret false
     else
       let expected_ip_subnet := ip config ++ "/" ++ subnet config in
       if found_correct_ip expected_ip_subnet (splitlines (stdout result))
       then print ("✓ IP " ++ expected_ip_subnet ++ " is configured on "
                   ++ interface config) ;;
            ret all_good
       else print ("✗ IP " ++ expected_ip_subnet
                   ++ " is not configured on " ++ interface config) ;;
            print ("Current IPs on " ++ interface config ++ ":") ;;
            print_lines_where (contains "inet ") (stdout result) ;;
            ret false) ;;
  (* Check gateway *)
  result <- run_command ["ip"; "route"; "show"; "default"] true ;;
  all_good <-
    (if contains (gateway config) (stdout result)
     then print ("✓ Default gateway " ++ gateway config
                 ++ " is configured") ;;
          ret all_good
     else print ("✗ Default gateway " ++ gateway config
                 ++ " is not configured") ;;
          print "Current default routes:" ;;
          print_lines_where (contains "default") (stdout result) ;;
          ret false) ;;
  (* Check DNS *)
  result <- run_command ["cat"; "/etc/resolv.conf"] true ;;
  all_good <-
    (if (returncode result =? 0)%Z && contains (dns config) (stdout result)
     then print ("✓ DNS server " ++ dns config ++ " is configured") ;;
          ret all_good
     else print ("✗ DNS server " ++ dns config ++ " is not configured") ;;
          print "Current DNS servers:" ;;
          print_lines_where (startswith "nameserver") (stdout result) ;;
          ret false) ;;
  (* Check SSID connection *)
  result <- run_command ["nmcli"; "device"; "wifi"; "list";
                         "--rescan"; "no"] true ;;
  all_good <-
    (if (returncode result =? 0)%Z
     then
       let connected_ssid :=
         find_connected_ssid (interface config)
                             (splitlines (stdout result)) in
       if ssid_eq connected_ssid (ssid config)
       then print ("✓ Connected to SSID '" ++ ssid config ++ "'") ;;
            ret all_good
       else print ("✗ Not connected to SSID '" ++ ssid config
                   ++ "' (connected to: " ++ str_opt connected_ssid
                   ++ ")") ;;
            ret false
     else print "✗ Could not verify SSID connection" ;;
          ret false) ;;
  ret all_good.

Definition display_config (config : WifiConfig) : M unit :=
  print (nl ++ banner) ;;
  print "CURRENT WIFI CONFIGURATION" ;;
  print banner ;;
  print ("SSID:           " ++ ssid config) ;;
  print ("Interface:      " ++ interface config) ;;
  print ("IP Address:     " ++ ip config ++ "/" ++ subnet config) ;;
  print ("Gateway:        " ++ gateway config) ;;
  print ("DNS Server:     " ++ dns config) ;;
  print ("Password:       "
         ++ (if truthy (password config) then password config
             else "(none)")) ;;
  print banner.

Definition with_ssid (c : WifiConfig) (v : string) : WifiConfig :=
  mkWifiConfig v (interface c) (ip c) (subnet c) (gateway c)
               (password c) (dns c).
Definition with_interface (c : WifiConfig) (v : string) : WifiConfig :=
  mkWifiConfig (ssid c) v (ip c) (subnet c) (gateway c)
               (password c) (dns c).
Definition with_ip (c : WifiConfig) (v : string) : WifiConfig :=
  mkWifiConfig (ssid c) (interface c) v (subnet c) (gateway c)
               (password c) (dns c).
Definition with_subnet (c : WifiConfig) (v : string) : WifiConfig :=
  mkWifiConfig (ssid c) (interface c) (ip c) v (gateway c)
               (password c) (dns c).
Definition with_gateway (c : WifiConfig) (v : string) : WifiConfig :=
  mkWifiConfig (ssid c) (interface c) (ip c) (subnet c) v
               (password c) (dns c).
Definition with_password (c : WifiConfig) (v : string) : WifiConfig :=
  mkWifiConfig (ssid c) (interface c) (ip c) (subnet c) (gateway c)
               v (dns c).
Definition with_dns (c : WifiConfig) (v : string) : WifiConfig :=
  mkWifiConfig (ssid c) (interface c) (ip c) (subnet c) (gateway c)
               (password c) v.

(** One "press Enter to keep" field of the editor: a non-empty answer
    is stored into the [config] object. *)
Definition edit_field (prompt : string)
  (store : WifiConfig -> string -> WifiConfig) : M unit :=
  new_value <- input prompt ;;
  let new_value := strip new_value in
  if truthy new_value
  then c <- get_config ;; set_config (store c new_value)
  else ret tt.

(** [edit_config(config)]: the argument is the module-level [config]
    object, which the editor changes in place. *)
Definition edit_config : M WifiConfig :=
  print (nl ++ "Configuration Editor") ;;
  print "Press Enter to keep current value, or type new value" ;;
  (* SSID *)
  c <- get_config ;;
  print (nl ++ "Current SSID: " ++ ssid c) ;;
  edit_field "New SSID (or Enter to keep): " with_ssid ;;
  (* Interface *)
  c <- get_config ;;
  print (nl ++ "Current Interface: " ++ interface c) ;;
  available_interfaces <- get_available_interfaces ;;
  (match available_interfaces with
   | [] => ret tt
   | _ :: _ =>
       print "Available interfaces:" ;;
       for_each_enum 1 available_interfaces
         (fun i iface => print ("  " ++ str_nat i ++ ". " ++ iface)) ;;
       print "  0. Custom input" ;;
       choice <- input "Select interface (or Enter to keep current): " ;;
       let choice := strip choice in
       if String.eqb choice "0"
       then edit_field "Enter interface name: " with_interface
       else if isdigit choice
               && (1 <=? int choice)
               && (int choice <=? List.length available_interfaces)
            then c <- get_config ;;
                 set_config
                   (with_interface c
                      (nth (int choice - 1) available_interfaces ""))
            else ret tt
   end) ;;
  (* IP Address *)
  c <- get_config ;;
  print (nl ++ "Current IP: " ++ ip c) ;;
  edit_field "New IP address (or Enter to keep): " with_ip ;;
  (* Subnet *)
  c <- get_config ;;
  print (nl ++ "Current Subnet: /" ++ subnet c) ;;
  edit_field "New subnet mask / (or Enter to keep): " with_subnet ;;
  (* Gateway *)
  c <- get_config ;;
  print (nl ++ "Current Gateway: " ++ gateway c) ;;
  edit_field "New gateway (or Enter to keep): " with_gateway ;;
  (* DNS *)
  c <- get_config ;;
  print (nl ++ "Current DNS: " ++ dns c) ;;
  edit_field "New DNS server (or Enter to keep): " with_dns ;;
  (* Password *)
  c <- get_config ;;
  print (nl ++ "Current Password: "
         ++ (if truthy (password c) then password c else "(none)")) ;;
  edit_field "New password (or Enter to keep): " with_password ;;
  get_config.

Definition DQUOTE : ascii := "034"%char.

(** The three lines the script writes into [config.yaml]. *)
Definition player_role_line (new_purpose : string) : string :=
  "      player_role: " ++ String DQUOTE new_purpose
  ++ String DQUOTE " # striker | goal_keeper" ++ nl.

Definition team_id_line (team_id : string) : string :=
  "      team_id: " ++ team_id
  ++ " # must be consistant with GameControl" ++ nl.

Definition player_id_line (player_id : string) : string :=
  "      player_id: " ++ player_id ++ " # 1 | 2 | 3 | 4 | 5" ++ nl.

(** The first loop of [configure_purpose]: the text between the first
    two double quotes of the first [player_role] line. *)
Fixpoint scan_current_purpose (lines : list string) : M string :=
  match lines with
  | [] => ret ""
  | line :: rest =>
      if contains "player_role" line
      then match nth_error (split_on DQUOTE (lstrip line)) 1 with
           | Some current_purpose => ret current_purpose
           | None => raise IndexError
           end
      else scan_current_purpose rest
  end.

(** Body of the rewriting loop of [configure_purpose]. *)
Definition write_purpose_line (new_purpose line : string) : M unit :=
  line <- (if contains "player_role" line
           then print ("New purpose set to: " ++ new_purpose) ;;
                ret (player_role_line new_purpose)
           else ret line) ;;
  f_write line.

Definition configure_purpose : M unit :=
  lines <- read_config_lines ;;
  current_purpose <- scan_current_purpose lines ;;
  print ("Current purpose: " ++ current_purpose) ;;
  new_purpose <-
    input "Enter new purpose (striker or goal_keeper) or Enter to keep: " ;;
  let new_purpose := strip new_purpose in
  (* Normalise the new purpose *)
  let new_purpose := lower new_purpose in
  if negb (in_list new_purpose ["striker"; "goal_keeper"])
  then print "Invalid purpose. Please enter either striker or goal_keeper."
  else
    if truthy new_purpose
    then lines <- read_config_lines ;;
         open_config_w ;;
         for_each lines (write_purpose_line new_purpose)
    else print "No new purpose provided".

Definition scan_networks : M unit :=
  print (nl ++ "Scanning for available networks...") ;;
  _ <- run_command ["nmcli"; "device"; "wifi"; "rescan"] true ;;
  networks <- get_available_networks ;;
  match networks with
  | _ :: _ =>
      print (nl ++ "Found " ++ str_nat (List.length networks)
             ++ " networks:") ;;
      for_each_enum 1 networks
        (fun i network => print ("  " ++ str_nat i ++ ". " ++ network))
  | [] => print "No networks found"
  end.

Definition scan_interfaces : M unit :=
  print (nl ++ "Available network interfaces:") ;;
  result <- run_command ["nmcli"; "device"] true ;;
  if (returncode result =? 0)%Z then print (stdout result)
  else print "Failed to get interface list".

(** The rewriting rule of [apply_configuration] for one line. *)
Definition rewrite_ids (team_id player_id line : string) : string :=
  if contains "team_id" line then team_id_line team_id
  else if contains "player_id" line then player_id_line player_id
  else line.

(** Body of the rewriting loop of [apply_configuration]. *)
Definition write_ids_line (team_id player_id line : string) : M unit :=
  line <- (if contains "team_id" line
           then print ("New team id set: " ++ team_id) ;;
                ret (team_id_line team_id)
           else if contains "player_id" line
                then print ("New player id set: " ++ player_id) ;;
                     ret (player_id_line player_id)
                else ret line) ;;
  f_write line.

(** [team_id, player_id = config.ip.split(".")[2:]]: the unpacking
    needs exactly two items. *)
Definition derive_ids (config : WifiConfig) : M (string * string) :=
  match skipn 2 (split_on "."%char (ip config)) with
  | [team_id; player_id] => ret (team_id, player_id)
  | _ => raise ValueError
  end.

Definition apply_configuration (config : WifiConfig) : M unit :=
  print ("Applying team and player id configurations..." ++ nl) ;;
  ids <- derive_ids config ;;
  let '(team_id, player_id) := ids in
  (* Write the team and player id to the brain config *)
  lines <- read_config_lines ;;
  open_config_w ;;
  for_each lines (write_ids_line team_id player_id) ;;
  print (nl ++ "Applying configuration for " ++ ssid config ++ "...") ;;
  (* Check if running as root *)
  id_u <- subprocess_run ["id"; "-u"] ;;
  if negb (String.eqb (strip (stdout id_u)) "0")
  then print "Error: This script must be run as root (use sudo)" ;;
       print "Please run: sudo python3 override_wifi_interactive.py"
  else
    (* Check if interface exists *)
    exists_ <- check_interface_exists (interface config) ;;
    if negb exists_
    then print ("Error: Interface " ++ interface config
                ++ " does not exist") ;;
         print "Available interfaces:" ;;
         _ <- subprocess_run ["nmcli"; "device"] ;;
         ret tt
    else
      disconnect_current config ;;
      created <- create_connection config ;;
      if negb created then print "Failed to create connection"
      else
        activated <- activate_connection config ;;
        if negb activated then print "Failed to activate connection"
        else
          verified <- verify_connection config ;;
          if negb verified then print "Configuration verification failed"
          else
            print (nl ++ "Configuration completed successfully!") ;;
            print ("Interface " ++ interface config
                   ++ " is now configured with IP " ++ ip config ++ "/"
                   ++ subnet config) ;;
            print "The connection is persistent and will be restored on reboot.".

Definition test_connection (config : WifiConfig) : M unit :=
  print (nl ++ "Testing connection to gateway " ++ gateway config
         ++ "...") ;;
  result <- run_command ["ping"; "-c"; "3"; "-W"; "2"; gateway config]
                        false ;;
  if (returncode result =? 0)%Z
  then print "✓ Connection test successful!" ;;
       for_each (splitlines (stdout result))
         (fun line =>
            if contains "packets transmitted" line
            then print ("  " ++ strip line)
            else if contains "rtt min/avg/max" line
                 then print ("  " ++ strip line)
                 else ret tt)
  else print "✗ Connection test failed" ;;
       print "Check your configuration and try again".

(** First loop of [reset_to_dhcp]: the first token of the first line
    whose lower-cased text holds both ["wifi"] and ["connected"]. *)
Fixpoint find_wifi_interface (lines : list string) : option string :=
  match lines with
  | [] => None
  | line :: rest =>
      if contains "wifi" (lower line) && contains "connected" (lower line)
      then let parts := split line in
           if 1 <=? List.length parts then Some (nth 0 parts "")
           else find_wifi_interface rest
      else find_wifi_interface rest
  end.

(** Second loop of [reset_to_dhcp]: what follows the first colon of the
    first [GENERAL.CONNECTION:] line. *)
Fixpoint find_active_connection (lines : list string) : option string :=
  match lines with
  | [] => None
  | line :: rest =>
      if contains "GENERAL.CONNECTION:" line
      then let parts := split_on_1 ":"%char line in
           if 2 <=? List.length parts then Some (strip (nth 1 parts ""))
           else find_active_connection rest
      else find_active_connection rest
  end.

(** [not x] for a value that is [None] or a [str]. *)
Definition not_ (o : option string) : bool :=
  match o with
  | None => true
  | Some s => String.eqb s ""
  end.

Definition reset_to_dhcp : M unit :=
  print (nl ++ "Resetting to DHCP...") ;;
  (* Get current active WiFi connection using device status *)
  result <- run_command ["nmcli"; "device"; "status"] true ;;
  if negb (returncode result =? 0)%Z
  then print "Failed to get device status"
  else
    (* Find the WiFi interface that's connected *)
    let wifi_interface :=
      find_wifi_interface (splitlines (stdout result)) in
    if not_ wifi_interface
    then print "No active WiFi connection found"
    else
      let wifi_interface := str_opt wifi_interface in
      (* Get the connection name for this interface *)
      result <- run_command ["nmcli"; "device"; "show"; wifi_interface]
                            true ;;
      if negb (returncode result =? 0)%Z
      then print ("Failed to get device info for " ++ wifi_interface)
      else
        let active_connection :=
          find_active_connection (splitlines (stdout result)) in
        if not_ active_connection
        then print ("Could not find connection name for interface "
                    ++ wifi_interface)
        else
          let active_connection := str_opt active_connection in
          print ("Resetting connection '" ++ active_connection
                 ++ "' to DHCP...") ;;
          (* Modify connection to use DHCP *)
          result <- run_command ["nmcli"; "connection"; "modify";
                                 active_connection;
                                 "ipv4.method"; "auto"] true ;;
          if negb (returncode result =? 0)%Z
          then print ("Failed to modify connection: " ++ stderr result)
          else
            (* Restart connection *)
            result <- run_command ["nmcli"; "connection"; "down";
                                   active_connection] true ;;
            if negb (returncode result =? 0)%Z
            then print ("Failed to bring down connection: "
                        ++ stderr result)
            else
              result <- run_command ["nmcli"; "connection"; "up";
                                     active_connection] true ;;
              if negb (returncode result =? 0)%Z
              then print ("Failed to bring up connection: "
                          ++ stderr result)
              else print "Connection reset to DHCP successfully".

Definition print_menu : M unit :=
  print (nl ++ banner) ;;
  print "BOOSTER WIFI IP OVERRIDE AND BRAIN CONFIGURATION TOOL" ;;
  print banner ;;
  print "1. Show current configuration" ;;
  print "2. Edit configuration" ;;
  print "3. Scan for available networks" ;;
  print "4. Scan for available interfaces" ;;
  print "5. Apply configuration" ;;
  print "6. Verify current connection" ;;
  print "7. Test connection (ping gateway)" ;;
  print "8. Reset to DHCP" ;;
  print "9. Configure purpose" ;;
  print "10. Configure player id" ;;
  print "0. Exit" ;;
  print banner.

(** The [if]/[elif] chain of [main_menu]; the branch for ["10"] is
    commented out in the script. *)
Definition dispatch (choice : string) : M unit :=
  if String.eqb choice "1" then c <- get_config ;; display_config c
  else if String.eqb choice "2" then _ <- edit_config ;; ret tt
  else if String.eqb choice "3" then scan_networks
  else if String.eqb choice "4" then scan_interfaces
  else if String.eqb choice "5"
       then c <- get_config ;; apply_configuration c
  else if String.eqb choice "6"
       then c <- get_config ;; _ <- verify_connection c ;; ret tt
  else if String.eqb choice "7" then c <- get_config ;; test_connection c
  else if String.eqb choice "8" then reset_to_dhcp
  else if String.eqb choice "9" then configure_purpose
  else if String.eqb choice "0"
       then print "Goodbye!" ;; raise (SystemExit 0%Z)
  else print "Invalid option. Please try again.".

(** One turn of the [while True] loop of [main_menu]. *)
Definition menu_turn : M unit :=
  print_menu ;;
  choice <- input "Select option: " ;;
  dispatch (strip choice).

(** [main_menu], for at most [fuel] turns of its loop. *)
Fixpoint main_menu (fuel : nat) : M unit :=
  match fuel with
  | O => fun w => (Timeout, w)
  | S fuel' => menu_turn ;; main_menu fuel'
  end.

Definition default_config : WifiConfig :=
  mkWifiConfig "robocup-x" "wlp146s0" "192.168.57.45" "27"
               "192.168.57.1" "9181918191" "8.8.8.8".


End Script.


(* ===================================================================== *)
(** ** Vocabulary of the properties *)
(* ===================================================================== *)

(** [c] occurs in [s]. *)
Fixpoint has_char (c : ascii) (s : string) : bool :=
  match s with
  | "" => false
  | String x s' => Ascii.eqb x c || has_char c s'
  end.

(** The text of a file written line after line. *)
Fixpoint concat_lines (l : list string) : string :=
  match l with
  | [] => ""
  | x :: l' => x ++ concat_lines l'
  end.

(** The external commands started in a stretch of the log. *)
Fixpoint commands (evs : list Event) : list (list string) :=
  match evs with
  | [] => []
  | EvRun cmd :: evs' => cmd :: commands evs'
  | _ :: evs' => commands evs'
  end.

(** The commands that change the network state: [nmcli device
    disconnect] and [nmcli connection delete|add|modify|up|down]. *)
Definition mutating (cmd : list string) : bool :=
  match cmd with
  | prog :: obj :: verb :: _ =>
      String.eqb prog "nmcli"
      && ((String.eqb obj "device" && String.eqb verb "disconnect")
          || (String.eqb obj "connection"
              && in_list verb ["delete"; "add"; "modify"; "up"; "down"]))
  | _ => false
  end.

(** The bytes of [config.yaml] after a stretch of the log. *)
Fixpoint replay_file (evs : list Event) (content : string) : string :=
  match evs with
  | [] => content
  | EvTruncate :: evs' => replay_file evs' ""
  | EvWrite text :: evs' => replay_file evs' (content ++ text)
  | _ :: evs' => replay_file evs' content
  end.

(** What one turn of the rewriting loop of [apply_configuration] logs. *)
Definition ids_events (team_id player_id line : string) : list Event :=
  if contains "team_id" line
  then [EvPrint ("New team id set: " ++ team_id);
        EvWrite (team_id_line team_id)]
  else if contains "player_id" line
       then [EvPrint ("New player id set: " ++ player_id);
             EvWrite (player_id_line player_id)]
       else [EvWrite line].

(** The rewriting rule of [configure_purpose] for one line, and what one
    turn of its loop logs. *)
Definition rewrite_purpose (new_purpose line : string) : string :=
  if contains "player_role" line then player_role_line new_purpose
  else line.

Definition purpose_events (new_purpose line : string) : list Event :=
  if contains "player_role" line
  then [EvPrint ("New purpose set to: " ++ new_purpose);
        EvWrite (player_role_line new_purpose)]
  else [EvWrite line].

(** The lines the script reads from [config.yaml]. *)
Definition lines_read (w : World) : list string :=
  readlines (universal_newlines (config_yaml w)).

(** A well-formed sequence of text lines: every line is free of LF up to
    its last character, and only the last line may lack the final LF (it
    is then not empty). *)
Inductive Lines : list string -> Prop :=
| Lines_nil : Lines []
| Lines_last (s : string) :
    s <> "" -> has_char LF s = false -> Lines [s]
| Lines_cons (body : string) (l : list string) :
    has_char LF body = false -> Lines l -> Lines ((body ++ nl) :: l).

(** A computation that leaves [config.yaml] as it found it. *)
Definition keeps_file {A : Type} (m : M A) : Prop :=
  forall w, config_yaml (snd (m w)) = config_yaml w.

(** What [print_menu] logs. *)
Definition menu_events : list Event :=
  [EvPrint (nl ++ banner);
   EvPrint "BOOSTER WIFI IP OVERRIDE AND BRAIN CONFIGURATION TOOL";
   EvPrint banner;
   EvPrint "1. Show current configuration";
   EvPrint "2. Edit configuration";
   EvPrint "3. Scan for available networks";
   EvPrint "4. Scan for available interfaces";
   EvPrint "5. Apply configuration";
   EvPrint "6. Verify current connection";
   EvPrint "7. Test connection (ping gateway)";
   EvPrint "8. Reset to DHCP";
   EvPrint "9. Configure purpose";
   EvPrint "10. Configure player id";
   EvPrint "0. Exit";
   EvPrint banner].

(** The inputs [main_menu] has a branch for. *)
Definition handled_options : list string :=
  ["1"; "2"; "3"; "4"; "5"; "6"; "7"; "8"; "9"; "0"].

(** *** Verification: the five checks *)

(** The five checks as [verify_connection] makes them, on the answers
    [r1] .. [r5] of its five commands. *)
Definition check_active (c : WifiConfig) (r1 : CompletedProcess) : bool :=
  contains (ssid c) (stdout r1).

Definition check_ip (c : WifiConfig) (r2 : CompletedProcess) : bool :=
  (returncode r2 =? 0)%Z
  && found_correct_ip (ip c ++ "/" ++ subnet c) (splitlines (stdout r2)).

Definition check_gateway (c : WifiConfig) (r3 : CompletedProcess) : bool :=
  contains (gateway c) (stdout r3).

Definition check_dns (c : WifiConfig) (r4 : CompletedProcess) : bool :=
  (returncode r4 =? 0)%Z && contains (dns c) (stdout r4).

Definition check_ssid (c : WifiConfig) (r5 : CompletedProcess) : bool :=
  (returncode r5 =? 0)%Z
  && ssid_eq (find_connected_ssid (interface c) (splitlines (stdout r5)))
             (ssid c).

(** The IP check in the words of the specification: an ["inet "] line of
    the address dump has a token that is equal to ["ip/subnet"]. *)
Definition spec_check_ip_token (c : WifiConfig) (dump : string) : bool :=
  existsb (fun line =>
             contains "inet " line
             && in_list (ip c ++ "/" ++ subnet c) (split line))
          (splitlines dump).

(** The five checks in the words of the specification, on the five
    output texts. *)
Definition spec_five_checks (c : WifiConfig)
  (r1 r2 r3 r4 r5 : CompletedProcess) : bool :=
  contains (ssid c) (stdout r1)
  && spec_check_ip_token c (stdout r2)
  && contains (gateway c) (stdout r3)
  && contains (dns c) (stdout r4)
  && ssid_eq (find_connected_ssid (interface c) (splitlines (stdout r5)))
             (ssid c).

(** *** Network listing *)








(** *** Device status *)

(** A row of [nmcli device status] for a connected WiFi interface, in
    the words of the specification: the TYPE column reads [wifi] and the
    STATE column reads [connected]. *)
Definition connected_wifi_row (line : string) : bool :=
  String.eqb (nth 1 (split line) "") "wifi"
  && String.eqb (nth 2 (split line) "") "connected".

(* ===================================================================== *)
(** ** Sample worlds *)
(* ===================================================================== *)

(** An outside world that answers the [n]-th command with the [n]-th
    entry of a script, and with a failure once the script is used up. *)
Definition scripted (answers : list CompletedProcess)
  : nat -> list string -> CompletedProcess :=
  fun n _ => nth n answers (mkCompletedProcess 1 "" "").

Definition ok (out : string) : CompletedProcess :=
  mkCompletedProcess 0 out "".

Definition no_error_text : list string -> Z -> string := fun _ _ => "".

Definition world_of (yaml : string) (typed : list string) : World :=
  mkWorld yaml typed default_config 0 [].

Definition sample_yaml : string :=
  "brain:" ++ nl
  ++ "      team_id: 1 # must be consistant with GameControl" ++ nl
  ++ "      player_id: 2 # 1 | 2 | 3 | 4 | 5" ++ nl
  ++ "      player_role: " ++ String DQUOTE "striker"
  ++ String DQUOTE " # striker | goal_keeper" ++ nl.

(** *** Frame of the rewrite *)

(** The frame of a rewrite of [config.yaml], on the bytes before and
    after: as many lines as before, and every line that holds no key is
    found again, byte for byte, at its place. *)
Definition frame_kept (is_key : string -> bool) (before after : string)
  : Prop :=
  List.length (readlines after) = List.length (readlines before)
  /\ forall (i : nat) (line : string),
       nth_error (readlines before) i = Some line ->
       is_key line = false ->
       nth_error (readlines after) i = Some line.

Definition ids_key (line : string) : bool :=
  contains "team_id" line || contains "player_id" line.

Definition purpose_key (line : string) : bool :=
  contains "player_role" line.

(** An outside world in which [id -u] does not answer [0]. *)
Definition not_root : nat -> list string -> CompletedProcess :=
  scripted [ok ("1000" ++ nl)].

(** A file with Windows line ends. *)
Definition crlf_yaml : string :=
  "brain:" ++ String CR nl ++ "  rate: 5" ++ String CR nl.

(** A file whose first line is a comment that names both keys, and whose
    second line has a longer key. *)
Definition comment_yaml : string :=
  "# team_id and player_id of this robot" ++ nl
  ++ "old_player_id: 7" ++ nl
  ++ "rate: 5" ++ nl.

(** A configuration whose last octet is not a number. *)
Definition odd_config : WifiConfig :=
  with_ip default_config "192.168.57.team_id".

(** A rewriting rule that either keeps a line or puts a full line in its
    place. *)
Definition line_rule (f : string -> string) : Prop :=
  forall s, f s = s
            \/ exists body, f s = body ++ nl /\ has_char LF body = false.

Definition purpose_prompt : string :=
  "Enter new purpose (striker or goal_keeper) or Enter to keep: ".

Definition invalid_purpose_message : string :=
  "Invalid purpose. Please enter either striker or goal_keeper.".

(** A computation that starts no command and returns [a]. *)
Definition quiet {A : Type} (m : M A) (a : A) : Prop :=
  forall w, exists w', m w = (Ret a, w') /\ calls w' = calls w.

(** The five commands of [verify_connection]. *)
Definition cmd_active : list string :=
  ["nmcli"; "connection"; "show"; "--active"].
Definition cmd_addr (c : WifiConfig) : list string :=
  ["ip"; "addr"; "show"; interface c].
Definition cmd_route : list string := ["ip"; "route"; "show"; "default"].
Definition cmd_resolv : list string := ["cat"; "/etc/resolv.conf"].
Definition cmd_wifi_list : list string :=
  ["nmcli"; "device"; "wifi"; "list"; "--rescan"; "no"].

(** A configuration that asks for prefix length 2, and an outside world
    in which the interface carries the same address with prefix length
    27. *)
Definition prefix2_config : WifiConfig := with_subnet default_config "2".

Definition answer_active : CompletedProcess :=
  ok ("NAME       UUID  TYPE  DEVICE" ++ nl
      ++ "robocup-x  0a1b  wifi  wlp146s0" ++ nl).
Definition answer_addr : CompletedProcess :=
  ok ("3: wlp146s0: <BROADCAST,MULTICAST,UP,LOWER_UP> mtu 1500" ++ nl
      ++ "    inet 192.168.57.45/27 brd 192.168.57.63 scope global wlp146s0"
      ++ nl).
Definition answer_route : CompletedProcess :=
  ok ("default via 192.168.57.1 dev wlp146s0 proto static metric 600" ++ nl).
Definition answer_resolv : CompletedProcess :=
  ok ("nameserver 8.8.8.8" ++ nl).
Definition answer_wifi_list : CompletedProcess :=
  ok ("IN-USE  SSID       DEVICE    SIGNAL" ++ nl
      ++ "*       robocup-x  wlp146s0  80 " ++ nl).

Definition prefix27_world : nat -> list string -> CompletedProcess :=
  scripted [answer_active; answer_addr; answer_route; answer_resolv;
            answer_wifi_list].

Definition cmd_wifi_scan_list : list string :=
  ["nmcli"; "device"; "wifi"; "list"].



Definition repeated_listing : string :=
  "IN-USE SSID ..." ++ nl
  ++ "* robocup-x ..." ++ nl
  ++ "* guest ..." ++ nl
  ++ "* robocup-x ..." ++ nl
  ++ "* guest ..." ++ nl.

(** [nmcli device status] and [nmcli device show] on a host whose WiFi
    interface is not connected. *)
Definition status_disconnected : string :=
  "DEVICE    TYPE      STATE         CONNECTION" ++ nl
  ++ "wlp146s0  wifi      disconnected  --" ++ nl
  ++ "lo        loopback  unmanaged     --" ++ nl.

Definition show_disconnected : string :=
  "GENERAL.DEVICE:                         wlp146s0" ++ nl
  ++ "GENERAL.TYPE:                           wifi" ++ nl
  ++ "GENERAL.STATE:                          30 (disconnected)" ++ nl
  ++ "GENERAL.CONNECTION:                     --" ++ nl.

Definition disconnected_host : nat -> list string -> CompletedProcess :=
  scripted [ok status_disconnected; ok show_disconnected;
            mkCompletedProcess 10 "" "Error: unknown connection."].

(** [nmcli device status] on a host without any WiFi interface. *)
Definition status_wired : string :=
  "DEVICE  TYPE      STATE      CONNECTION" ++ nl
  ++ "eno1    ethernet  connected  Wired connection 1" ++ nl
  ++ "lo      loopback  unmanaged  --" ++ nl.

Definition no_active_wifi_message : string :=
  "No active WiFi connection found".

Definition cmd_status : list string := ["nmcli"; "device"; "status"].

(** *** Runs that only talk to the network *)

(** The world after a stretch of the log in which nothing but prints and
    external commands happened: the file, the console input and the
    [config] object are as before, and every command counts. *)
Definition after (w : World) (evs : list Event) : World :=
  mkWorld (config_yaml w) (stdin w) (config w)
          (List.length (commands evs) + calls w)
          (log w ++ evs)%list.

(** A computation that, from every world, returns, leaves behind only
    prints and external commands, and starts exactly the commands
    [cmds], in that order. *)
Definition starts_exactly {A : Type} (m : M A) (cmds : list (list string))
  : Prop :=
  forall w, exists (a : A) (evs : list Event),
    m w = (Ret a, after w evs) /\ commands evs = cmds.

(** What [run_command] prints after the command: the error line, when
    [check] is set and the exit status is not 0. *)
Definition error_report (err : list string -> Z -> string)
  (cmd : list string) (check : bool) (r : CompletedProcess) : list Event :=
  if check && negb (returncode r =? 0)%Z
  then [EvPrint ("Error running command " ++ join " " cmd ++ ": "
                 ++ err cmd (returncode r))]
  else [].

(** A computation that never uses up the loop bound, never puts lines
    back on the console input, and whose only exit status is 0. *)
Definition tame {A : Type} (m : M A) : Prop :=
  forall w,
    fst (m w) <> Timeout
    /\ List.length (stdin (snd (m w))) <= List.length (stdin w)
    /\ forall code, fst (m w) = Exc (SystemExit code) -> code = 0%Z.

(** Some character of [s] is not white space. *)
Fixpoint has_nonspace (s : string) : bool :=
  match s with
  | "" => false
  | String c s' => negb (isspace c) || has_nonspace s'
  end.

(** No character of [s] is white space. *)
Fixpoint no_space (s : string) : bool :=
  match s with
  | "" => true
  | String c s' => negb (isspace c) && no_space s'
  end.

Definition cmd_device : list string := ["nmcli"; "device"].
Definition cmd_rescan : list string := ["nmcli"; "device"; "wifi"; "rescan"].
Definition cmd_ping (c : WifiConfig) : list string :=
  ["ping"; "-c"; "3"; "-W"; "2"; gateway c].

(** The commands of [verify_connection], in the order it starts them. *)
Definition verify_commands (c : WifiConfig) : list (list string) :=
  [cmd_active; cmd_addr c; cmd_route; cmd_resolv; cmd_wifi_list].

(** The menu options that only look at the network. *)
Definition read_only_options : list string := ["1"; "3"; "4"; "6"; "7"].

(** What the numbered listing loops print: [  i. item], counting from
    [i0]. *)
Fixpoint numbered_events (i0 : nat) (l : list string) : list Event :=
  match l with
  | [] => []
  | x :: l' =>
      EvPrint ("  " ++ str_nat i0 ++ ". " ++ x) :: numbered_events (S i0) l'
  end.

(** What [get_available_networks] makes of the answer of the listing
    command. *)
Definition networks_of (r : CompletedProcess) : list string :=
  if negb (returncode r =? 0)%Z then [] else parse_networks (stdout r).

(** What [scan_networks] prints after the listing. *)
Definition networks_report (networks : list string) : list Event :=
  match networks with
  | [] => [EvPrint "No networks found"]
  | _ :: _ =>
      EvPrint (nl ++ "Found " ++ str_nat (List.length networks)
               ++ " networks:")
      :: numbered_events 1 networks
  end.

(** The first column of a row, and the rows [get_available_interfaces]
    takes for WiFi interfaces: not blank, the text [wifi] somewhere in
    the lower-cased row, and a first column that does not start with
    [DEVICE]. *)
Definition first_token (line : string) : string := nth 0 (split line) "".

Definition wifi_row (line : string) : bool :=
  truthy (strip line) && contains "wifi" (lower line)
  && negb (startswith "DEVICE" (first_token line)).

Definition interfaces_of (r : CompletedProcess) : list string :=
  if negb (returncode r =? 0)%Z then []
  else map first_token (filter wifi_row (splitlines (stdout r))).

(** The device table of the specification's example, and one on which an
    Ethernet row is taken for WiFi because of its connection name. *)
Definition device_table : string :=
  "DEVICE TYPE STATE" ++ nl ++ "wlan0 wifi connected" ++ nl.

Definition device_table_wired : string :=
  "DEVICE  TYPE      STATE      CONNECTION" ++ nl
  ++ "eno1    ethernet  connected  Office-WiFi-Bridge" ++ nl.

(** *** The commands that change the network, and their gates *)

Definition cmd_id : list string := ["id"; "-u"].
Definition cmd_show (interface : string) : list string :=
  ["nmcli"; "device"; "show"; interface].
Definition cmd_delete (c : WifiConfig) : list string :=
  ["nmcli"; "connection"; "delete"; ssid c].
Definition cmd_add (c : WifiConfig) : list string :=
  ["nmcli"; "connection"; "add";
   "type"; "wifi";
   "con-name"; ssid c;
   "ifname"; interface c;
   "ssid"; ssid c;
   "ip4"; ip c ++ "/" ++ subnet c;
   "gw4"; gateway c;
   "ipv4.dns"; dns c;
   "ipv4.method"; "manual"].
Definition cmd_psk (c : WifiConfig) : list string :=
  ["nmcli"; "connection"; "modify"; ssid c;
   "wifi-sec.key-mgmt"; "wpa-psk";
   "wifi-sec.psk"; password c].



(** The world in which the privilege check of [apply_configuration]
    starts: [config.yaml] has been rewritten. *)
Definition patched_world (w : World) (tid pid : string) : World :=
  mkWorld (concat_lines (map (rewrite_ids tid pid) (lines_read w)))
          (stdin w) (config w) (calls w)
          (log w
           ++ [EvPrint ("Applying team and player id configurations..."
                        ++ nl);
               EvTruncate]
           ++ flat_map (ids_events tid pid) (lines_read w))%list.

Definition applying_message (c : WifiConfig) : string :=
  nl ++ "Applying configuration for " ++ ssid c ++ "...".

(** What [create_connection] logs up to the answer of [nmcli connection
    add]. *)
Definition create_events (err : list string -> Z -> string)
  (c : WifiConfig) (added : CompletedProcess) : list Event :=
  [EvPrint ("Creating connection to " ++ ssid c ++ " with static IP "
            ++ ip c ++ "/" ++ subnet c ++ "...");
   EvRun (cmd_delete c);
   EvRun (cmd_add c)]
  ++ error_report err (cmd_add c) true added.




(** A privileged user on a host where the interface exists, the profile
    is added and activated, and the interface carries
    [192.168.57.45/27]. *)
Definition provisioned_host : nat -> list string -> CompletedProcess :=
  scripted [ok ("0" ++ nl); ok ""; ok ""; ok ""; ok ""; ok ""; ok "";
            answer_active; answer_addr; answer_route; answer_resolv;
            answer_wifi_list].

(** A privileged user on a host without the configured interface. *)
Definition host_without_interface : nat -> list string -> CompletedProcess :=
  scripted [ok ("0" ++ nl);
            mkCompletedProcess 10 "" "Error: Device 'wlp146s0' not found."].

(** *** The editor *)

(** The world in the middle of [edit_config]: the [config] object may
    have changed and console lines have been read; the file is as
    before. *)
Definition edited (w : World) (c : WifiConfig) (rest : list string)
  (evs : list Event) : World :=
  mkWorld (config_yaml w) rest c
          (List.length (commands evs) + calls w)
          (log w ++ evs)%list.

(** "Press Enter to keep": an answer that is blank keeps the old value,
    any other answer replaces it, stripped. *)
Definition keep_or (old answer : string) : string :=
  if truthy (strip answer) then strip answer else old.

(** The interface picked from the numbered list: the [k]-th for an
    answer that is a number [k] between 1 and the length of the list,
    the old one for every other answer. *)
Definition chosen_interface (interfaces : list string)
  (answer old : string) : string :=
  if isdigit (strip answer)
     && (1 <=? int (strip answer))
     && (int (strip answer) <=? List.length interfaces)
  then nth (int (strip answer) - 1) interfaces ""
  else old.

(** A host with two WiFi interfaces. *)
Definition two_wifi_table : string :=
  "DEVICE   TYPE  STATE         CONNECTION" ++ nl
  ++ "wlan0    wifi  connected     robocup-x" ++ nl
  ++ "wlan1    wifi  disconnected  --" ++ nl.

(** What the editor logs for the five fields after the interface: each
    current value is shown before its prompt. *)
Definition editor_tail_events (c : WifiConfig) : list Event :=
  [EvPrint (nl ++ "Current IP: " ++ ip c);
   EvInput "New IP address (or Enter to keep): ";
   EvPrint (nl ++ "Current Subnet: /" ++ subnet c);
   EvInput "New subnet mask / (or Enter to keep): ";
   EvPrint (nl ++ "Current Gateway: " ++ gateway c);
   EvInput "New gateway (or Enter to keep): ";
   EvPrint (nl ++ "Current DNS: " ++ dns c);
   EvInput "New DNS server (or Enter to keep): ";
   EvPrint (nl ++ "Current Password: "
            ++ (if truthy (password c) then password c else "(none)"));
   EvInput "New password (or Enter to keep): "].

(** What the editor logs up to the listing of the interfaces. *)
Definition editor_head_events (c : WifiConfig) : list Event :=
  [EvPrint (nl ++ "Configuration Editor");
   EvPrint "Press Enter to keep current value, or type new value";
   EvPrint (nl ++ "Current SSID: " ++ ssid c);
   EvInput "New SSID (or Enter to keep): ";
   EvPrint (nl ++ "Current Interface: " ++ interface c);
   EvRun cmd_device].

(** What the editor logs for a non-empty list of interfaces, up to its
    prompt. *)
Definition editor_list_events (interfaces : list string) : list Event :=
  ([EvPrint "Available interfaces:"]
   ++ numbered_events 1 interfaces
   ++ [EvPrint "  0. Custom input";
       EvInput "Select interface (or Enter to keep current): "])%list.

(** A file whose role is written without quotes, and a file without any
    of the three keys. *)
Definition unquoted_yaml : string :=
  "brain:" ++ nl ++ "      player_role: striker" ++ nl.

Definition keyless_yaml : string :=
  "brain:" ++ nl ++ "      rate: 5" ++ nl.

Definition applying_ids_message : string :=
  "Applying team and player id configurations..." ++ nl.



(** The sample file with two console lines: a role, then Enter. *)
Definition role_then_enter : World :=
  world_of sample_yaml ["goal_keeper"; ""].

(* ===================================================================== *)
(** ** Facts about text *)
(* ===================================================================== *)

Lemma append_assoc (a b c : string) : (a ++ b) ++ c = a ++ (b ++ c).
Proof.
  induction a as [|x a IH]; simpl; [reflexivity | now rewrite IH].
Qed.

Lemma append_nil_r (a : string) : a ++ "" = a.
Proof.
  induction a as [|x a IH]; simpl; [reflexivity | now rewrite IH].
Qed.

Lemma has_char_app (c : ascii) (a b : string) :
  has_char c (a ++ b) = has_char c a || has_char c b.
Proof.
  induction a as [|x a IH]; simpl; [reflexivity|].
  now rewrite IH, orb_assoc.
Qed.

Lemma has_char_concat_lines (c : ascii) (l : list string) :
  has_char c (concat_lines l) = existsb (has_char c) l.
Proof.
  induction l as [|x l IH]; simpl; [reflexivity|].
  now rewrite has_char_app, IH.
Qed.

Lemma contains_nil_l (s : string) : contains "" s = true.
Proof. destruct s; reflexivity. Qed.

Lemma contains_app_r (n a b : string) :
  contains n b = true -> contains n (a ++ b) = true.
Proof.
  intros H. induction a as [|x a IH]; simpl; [exact H|].
  rewrite IH. apply orb_true_r.
Qed.

(** A needle that avoids the character [c] cannot reach across a [c]. *)
Lemma startswith_sep (c : ascii) (n a b : string) :
  has_char c n = false ->
  startswith n (a ++ String c b) = startswith n a.
Proof.
  revert a. induction n as [|x n IH]; intros a H; [reflexivity|].
  simpl in H. apply orb_false_iff in H as [Hx Hn].
  destruct a as [|y a]; simpl.
  - now rewrite Hx.
  - now rewrite IH.
Qed.

Lemma contains_sep (c : ascii) (n a b : string) :
  has_char c n = false ->
  contains n (a ++ String c b) = contains n a || contains n b.
Proof.
  intros H. induction a as [|y a IH].
  - destruct n as [|x n]; [now rewrite !contains_nil_l|].
    simpl in H. apply orb_false_iff in H as [Hx _].
    simpl. now rewrite Hx.
  - change (contains n (String y a ++ String c b))
      with (startswith n (String y (a ++ String c b))
            || contains n (a ++ String c b)).
    change (contains n (String y a))
      with (startswith n (String y a) || contains n a).
    rewrite IH.
    change (String y (a ++ String c b)) with (String y a ++ String c b).
    rewrite (startswith_sep c n (String y a) b H).
    now rewrite orb_assoc.
Qed.

(** *** Lines *)

Lemma concat_readlines (s : string) : concat_lines (readlines s) = s.
Proof.
  induction s as [|c s IH]; [reflexivity|].
  simpl. destruct (Ascii.eqb c LF).
  - simpl. now rewrite IH.
  - destruct (readlines s) as [|l ls]; simpl in *; now rewrite <- IH.
Qed.

Lemma readlines_Lines (s : string) : Lines (readlines s).
Proof.
  induction s as [|c s IH]; [constructor|].
  simpl. destruct (Ascii.eqb_spec c LF) as [->|Hc].
  - apply (Lines_cons "" _); [reflexivity | exact IH].
  - apply Ascii.eqb_neq in Hc.
    inversion IH as [|s0 Hne Hlf|body l Hlf Hl]; subst.
    + apply Lines_last; [discriminate|]. simpl. now rewrite Hc.
    + apply Lines_last; [discriminate|]. simpl. now rewrite Hc, Hlf.
    + apply (Lines_cons (String c body) l); [|exact Hl].
      simpl. now rewrite Hc, Hlf.
Qed.

Lemma readlines_line (body rest : string) :
  has_char LF body = false ->
  readlines ((body ++ nl) ++ rest) = (body ++ nl) :: readlines rest.
Proof.
  induction body as [|c body IH]; intros H; [reflexivity|].
  simpl in H. apply orb_false_iff in H as [Hc Hb].
  simpl. rewrite Hc, (IH Hb). reflexivity.
Qed.

Lemma readlines_single (s : string) :
  s <> "" -> has_char LF s = false -> readlines s = [s].
Proof.
  induction s as [|c s IH]; intros Hne H; [congruence|].
  simpl in H. apply orb_false_iff in H as [Hc Hs].
  simpl. rewrite Hc. destruct s as [|d s]; [reflexivity|].
  rewrite IH; [reflexivity | discriminate | exact Hs].
Qed.

(** Reading back what was written line by line gives the lines. *)
Lemma readlines_concat (l : list string) :
  Lines l -> readlines (concat_lines l) = l.
Proof.
  induction 1 as [|s Hne Hlf|body l Hlf Hl IH].
  - reflexivity.
  - simpl. rewrite append_nil_r. now apply readlines_single.
  - simpl. now rewrite readlines_line, IH.
Qed.

Lemma universal_newlines_id (s : string) :
  has_char CR s = false -> universal_newlines s = s.
Proof.
  induction s as [|c s IH]; intros H; [reflexivity|].
  simpl in H. apply orb_false_iff in H as [Hc Hs].
  simpl. rewrite Hc. now rewrite IH.
Qed.

Lemma universal_newlines_CR (d : ascii) (s : string) :
  universal_newlines (String CR (String d s))
  = String LF (if Ascii.eqb d LF then universal_newlines s
               else universal_newlines (String d s)).
Proof. reflexivity. Qed.

Lemma universal_newlines_no_cr_upto (n : nat) (s : string) :
  String.length s <= n -> has_char CR (universal_newlines s) = false.
Proof.
  revert s. induction n as [|n IH]; intros s Hn.
  - destruct s; [reflexivity | simpl in Hn; lia].
  - destruct s as [|c s]; [reflexivity|].
    simpl in Hn.
    destruct (Ascii.eqb_spec c CR) as [->|Hc].
    + destruct s as [|d s]; [reflexivity|].
      simpl in Hn. rewrite universal_newlines_CR.
      change (has_char CR (if Ascii.eqb d LF then universal_newlines s
                           else universal_newlines (String d s)) = false).
      destruct (Ascii.eqb d LF); apply IH; simpl; lia.
    + apply Ascii.eqb_neq in Hc.
      change (universal_newlines (String c s))
        with (if Ascii.eqb c CR
              then String LF match s with
                             | String d s'' =>
                                 if Ascii.eqb d LF then universal_newlines s''
                                 else universal_newlines s
                             | "" => universal_newlines s
                             end
              else String c (universal_newlines s)).
      rewrite Hc. simpl. rewrite Hc. apply IH. lia.
Qed.

Lemma universal_newlines_no_cr (s : string) :
  has_char CR (universal_newlines s) = false.
Proof. now apply (universal_newlines_no_cr_upto (String.length s)). Qed.

(* ===================================================================== *)
(** ** Facts about the monad and the loops *)
(* ===================================================================== *)

Lemma bind_run {A B : Type} (m : M A) (f : A -> M B) (w w' : World) (a : A) :
  m w = (Ret a, w') -> bind m f w = f a w'.
Proof. intros H. unfold bind. now rewrite H. Qed.

Lemma bind_exc {A B : Type} (m : M A) (f : A -> M B) (w w' : World) (e : Exn) :
  m w = (Exc e, w') -> bind m f w = (Exc e, w').
Proof. intros H. unfold bind. now rewrite H. Qed.

(** One step through a [bind] whose first part computes. *)
Ltac step := erewrite bind_run; [| reflexivity].

Lemma keeps_ret {A : Type} (a : A) : keeps_file (ret a).
Proof. intros w. reflexivity. Qed.

Lemma keeps_bind {A B : Type} (m : M A) (f : A -> M B) :
  keeps_file m -> (forall a, keeps_file (f a)) -> keeps_file (bind m f).
Proof.
  intros Hm Hf w. unfold bind. specialize (Hm w).
  destruct (m w) as [[a|e|] w']; simpl in *; [|assumption..].
  now rewrite Hf.
Qed.

Lemma keeps_print (text : string) : keeps_file (print text).
Proof. intros w. reflexivity. Qed.

Lemma keeps_for_each {A : Type} (l : list A) (body : A -> M unit) :
  (forall x, keeps_file (body x)) -> keeps_file (for_each l body).
Proof.
  intros H. induction l as [|x l IH]; simpl.
  - apply keeps_ret.
  - apply keeps_bind; [apply H | intros _; exact IH].
Qed.

Section ScriptFacts.

Variable sys : nat -> list string -> CompletedProcess.
Variable CalledProcessError_str : list string -> Z -> string.

Lemma keeps_subprocess_run (cmd : list string) :
  keeps_file (subprocess_run sys cmd).
Proof. intros w. reflexivity. Qed.

Lemma keeps_run_command (cmd : list string) (check : bool) :
  keeps_file (run_command sys CalledProcessError_str cmd check).
Proof.
  unfold run_command. apply keeps_bind; [apply keeps_subprocess_run|].
  intros r. destruct (check && negb (returncode r =? 0)%Z).
  - apply keeps_bind; [apply keeps_print | intros _; apply keeps_ret].
  - apply keeps_ret.
Qed.

(** Decomposes a computation built from commands, prints and tests. *)
Ltac keeps :=
  repeat first
    [ apply keeps_ret
    | apply keeps_print
    | apply keeps_subprocess_run
    | apply keeps_run_command
    | apply keeps_for_each; intros ?
    | apply keeps_bind; [| intros ?]
    | progress cbv zeta
    | match goal with
      | |- keeps_file (if ?c then _ else _) => destruct c
      end ].

Lemma keeps_verify_connection (cfg : WifiConfig) :
  keeps_file (verify_connection sys CalledProcessError_str cfg).
Proof. unfold verify_connection, print_lines_where. keeps. Qed.

Lemma keeps_create_connection (cfg : WifiConfig) :
  keeps_file (create_connection sys CalledProcessError_str cfg).
Proof. unfold create_connection. keeps. Qed.

(** What the rewriting loop of [apply_configuration] does: the lines go
    out one by one, each through [rewrite_ids]. *)
Lemma write_ids_loop (tid pid : string) (lines : list string) (w : World) :
  for_each lines (write_ids_line tid pid) w
  = (Ret tt,
     mkWorld (config_yaml w
              ++ concat_lines (map (rewrite_ids tid pid) lines))
             (stdin w) (config w) (calls w)
             (log w ++ flat_map (ids_events tid pid) lines)%list).
Proof.
  revert w. induction lines as [|line lines IH]; intros w.
  - simpl. rewrite append_nil_r, app_nil_r. now destruct w.
  - simpl for_each. unfold write_ids_line at 1.
    unfold rewrite_ids, ids_events. simpl map. simpl flat_map.
    destruct (contains "team_id" line);
      [| destruct (contains "player_id" line)];
      (erewrite bind_run; [| reflexivity]); rewrite IH; simpl;
      rewrite append_assoc, <- ?app_assoc; reflexivity.
Qed.

(** The same for [configure_purpose]. *)
Lemma write_purpose_loop (p : string) (lines : list string) (w : World) :
  for_each lines (write_purpose_line p) w
  = (Ret tt,
     mkWorld (config_yaml w
              ++ concat_lines (map (rewrite_purpose p) lines))
             (stdin w) (config w) (calls w)
             (log w ++ flat_map (purpose_events p) lines)%list).
Proof.
  revert w. induction lines as [|line lines IH]; intros w.
  - simpl. rewrite append_nil_r, app_nil_r. now destruct w.
  - simpl for_each. unfold write_purpose_line at 1.
    unfold rewrite_purpose, purpose_events. simpl map. simpl flat_map.
    destruct (contains "player_role" line);
      (erewrite bind_run; [| reflexivity]); rewrite IH; simpl;
      rewrite append_assoc, <- ?app_assoc; reflexivity.
Qed.

(** Whatever the network steps do, [apply_configuration] leaves in
    [config.yaml] the lines it read, each through [rewrite_ids]. *)
Lemma apply_configuration_file (cfg : WifiConfig) (w : World)
  (tid pid : string) :
  skipn 2 (split_on "."%char (ip cfg)) = [tid; pid] ->
  config_yaml (snd (apply_configuration sys CalledProcessError_str cfg w))
  = concat_lines (map (rewrite_ids tid pid) (lines_read w)).
Proof.
  intros H. unfold apply_configuration.
  step.
  erewrite bind_run; [| unfold derive_ids; rewrite H; reflexivity].
  cbv beta iota.
  step. step.
  erewrite bind_run; [| apply write_ids_loop].
  match goal with
  | |- config_yaml (snd (bind ?m ?f ?w0)) = _ =>
      assert (K : keeps_file (bind m f))
  end.
  { pose proof keeps_verify_connection. pose proof keeps_create_connection.
    unfold check_interface_exists, disconnect_current, activate_connection.
    keeps; auto. }
  rewrite K. reflexivity.
Qed.

End ScriptFacts.

(* ===================================================================== *)
(** ** Deriving team and player id from the IP *)
(* ===================================================================== *)

Lemma split_on_no_sep (sep : ascii) (a : string) :
  has_char sep a = false -> split_on sep a = [a].
Proof.
  induction a as [|c a IH]; intros H; [reflexivity|].
  simpl in H. apply orb_false_iff in H as [Hc Ha].
  simpl. now rewrite Hc, IH.
Qed.

Lemma split_on_app_sep (sep : ascii) (a b : string) :
  has_char sep a = false ->
  split_on sep (a ++ String sep b) = a :: split_on sep b.
Proof.
  induction a as [|c a IH]; intros H.
  - simpl. now rewrite Ascii.eqb_refl.
  - simpl in H. apply orb_false_iff in H as [Hc Ha].
    simpl. now rewrite Hc, IH.
Qed.

(** The pieces of a dotted quad are its four octets. *)
Lemma split_on_dotted (a b c d : string) :
  has_char "."%char a = false -> has_char "."%char b = false ->
  has_char "."%char c = false -> has_char "."%char d = false ->
  split_on "."%char (a ++ "." ++ b ++ "." ++ c ++ "." ++ d) = [a; b; c; d].
Proof.
  intros Ha Hb Hc Hd.
  change ("." ++ b ++ "." ++ c ++ "." ++ d)
    with (String "."%char (b ++ String "."%char (c ++ String "."%char d))).
  now rewrite !split_on_app_sep, split_on_no_sep.
Qed.

Section Derive.

Variable sys : nat -> list string -> CompletedProcess.
Variable CalledProcessError_str : list string -> Z -> string.

Lemma derive_ids_octets (cfg : WifiConfig) (w : World) (a b c d : string) :
  split_on "."%char (ip cfg) = [a; b; c; d] ->
  derive_ids cfg w = (Ret (c, d), w).
Proof. intros E. unfold derive_ids. now rewrite E. Qed.

(** C1.  When the configured IP splits on the dot into exactly four
    octets, the Derive step of [apply_configuration] returns the third
    octet as team_id and the fourth as player_id, without touching the
    world, and these are the two values the Patch step then writes into
    [config.yaml]. *)
Theorem C1_derive_third_and_fourth_octet (cfg : WifiConfig) (w : World) :
  List.length (split_on "."%char (ip cfg)) = 4 ->
  let octets := split_on "."%char (ip cfg) in
  derive_ids cfg w = (Ret (nth 2 octets "", nth 3 octets ""), w)
  /\ config_yaml (snd (apply_configuration sys CalledProcessError_str
                                           cfg w))
     = concat_lines (map (rewrite_ids (nth 2 octets "") (nth 3 octets ""))
                         (lines_read w)).
Proof.
  intros H octets. subst octets.
  destruct (split_on "."%char (ip cfg)) as [|a [|b [|c [|d [|e l]]]]] eqn:E;
    try discriminate H.
  split.
  - now apply (derive_ids_octets cfg w a b c d).
  - apply apply_configuration_file. now rewrite E.
Qed.

(** An IP written as four dot-free octets derives the last two. *)
Corollary derive_ids_dotted (cfg : WifiConfig) (w : World)
  (a b c d : string) :
  ip cfg = a ++ "." ++ b ++ "." ++ c ++ "." ++ d ->
  has_char "."%char a = false -> has_char "."%char b = false ->
  has_char "."%char c = false -> has_char "."%char d = false ->
  derive_ids cfg w = (Ret (c, d), w).
Proof.
  intros E Ha Hb Hc Hd.
  apply (derive_ids_octets cfg w a b c d).
  rewrite E. now apply split_on_dotted.
Qed.

End Derive.

(** C1 at the script's default IP ["192.168.57.45"]: team_id ["57"],
    player_id ["45"]. *)
Lemma C1_default_ip_witness :
  List.length (split_on "."%char "192.168.57.45") = 4
  /\ derive_ids default_config (world_of sample_yaml [])
     = (Ret ("57", "45"), world_of sample_yaml []).
Proof.
  split; [reflexivity|].
  exact (proj1 (C1_derive_third_and_fourth_octet
                  not_root no_error_text default_config
                  (world_of sample_yaml []) eq_refl)).
Defined.

(* ===================================================================== *)
(** ** Patching config.yaml *)
(* ===================================================================== *)

Lemma map_Lines (f : string -> string) (l : list string) :
  line_rule f -> Lines l -> Lines (map f l).
Proof.
  intros Hf. induction 1 as [|s Hne Hlf|body l Hlf Hl IH]; simpl.
  - constructor.
  - destruct (Hf s) as [->|(b & -> & Hb)].
    + now apply Lines_last.
    + apply Lines_cons; [exact Hb | constructor].
  - destruct (Hf (body ++ nl)) as [->|(b & -> & Hb)];
      now apply Lines_cons.
Qed.

Lemma team_id_line_shape (tid : string) :
  team_id_line tid
  = ("      team_id: " ++ tid ++ " # must be consistant with GameControl")
    ++ nl.
Proof. unfold team_id_line. now rewrite !append_assoc. Qed.

Lemma player_id_line_shape (pid : string) :
  player_id_line pid
  = ("      player_id: " ++ pid ++ " # 1 | 2 | 3 | 4 | 5") ++ nl.
Proof. unfold player_id_line. now rewrite !append_assoc. Qed.

Lemma rewrite_ids_rule (tid pid : string) :
  has_char LF tid = false -> has_char LF pid = false ->
  line_rule (rewrite_ids tid pid).
Proof.
  intros Ht Hp s. unfold rewrite_ids.
  destruct (contains "team_id" s); [|destruct (contains "player_id" s)].
  - right. eexists. split; [apply team_id_line_shape|].
    rewrite !has_char_app, Ht. reflexivity.
  - right. eexists. split; [apply player_id_line_shape|].
    rewrite !has_char_app, Hp. reflexivity.
  - now left.
Qed.

Lemma rewrite_purpose_rule (p : string) :
  In p ["striker"; "goal_keeper"] -> line_rule (rewrite_purpose p).
Proof.
  intros Hp s. unfold rewrite_purpose.
  destruct (contains "player_role" s); [|now left].
  right.
  exists ("      player_role: " ++ String DQUOTE p
          ++ String DQUOTE " # striker | goal_keeper").
  split.
  - unfold player_role_line.
    change (String DQUOTE p) with (String DQUOTE "" ++ p).
    change (String DQUOTE " # striker | goal_keeper")
      with (String DQUOTE "" ++ " # striker | goal_keeper").
    now rewrite !append_assoc.
  - destruct Hp as [<-|[<-|[]]]; reflexivity.
Qed.

Lemma existsb_has_char_readlines (c : ascii) (s : string) :
  existsb (has_char c) (readlines s) = has_char c s.
Proof. now rewrite <- has_char_concat_lines, concat_readlines. Qed.

Lemma existsb_map_false (c : ascii) (f : string -> string) (l : list string) :
  (forall s, has_char c s = false -> has_char c (f s) = false) ->
  existsb (has_char c) l = false ->
  existsb (has_char c) (map f l) = false.
Proof.
  intros Hf. induction l as [|x l IH]; simpl; [reflexivity|].
  intros H. apply orb_false_iff in H as [Hx Hl].
  now rewrite Hf, IH.
Qed.

(** Reading back, in text mode, a file written from the lines read
    before, each through a rule that brings in no CR, gives those lines
    through the rule. *)
Lemma reread_rewritten (f : string -> string) (content : string) :
  line_rule f ->
  (forall s, has_char CR s = false -> has_char CR (f s) = false) ->
  readlines (universal_newlines
               (concat_lines
                  (map f (readlines (universal_newlines content)))))
  = map f (readlines (universal_newlines content)).
Proof.
  intros Hf Hcr.
  rewrite universal_newlines_id.
  - apply readlines_concat, map_Lines; [exact Hf | apply readlines_Lines].
  - rewrite has_char_concat_lines. apply existsb_map_false; [exact Hcr|].
    rewrite existsb_has_char_readlines.
    apply universal_newlines_no_cr.
Qed.

Lemma rewrite_ids_no_cr (tid pid : string) :
  has_char CR tid = false -> has_char CR pid = false ->
  forall s, has_char CR s = false ->
            has_char CR (rewrite_ids tid pid s) = false.
Proof.
  intros Ht Hp s Hs. unfold rewrite_ids, team_id_line, player_id_line.
  destruct (contains "team_id" s); [|destruct (contains "player_id" s)];
    rewrite ?has_char_app, ?Ht, ?Hp; auto.
Qed.

Lemma rewrite_purpose_no_cr (p : string) :
  In p ["striker"; "goal_keeper"] ->
  forall s, has_char CR s = false ->
            has_char CR (rewrite_purpose p s) = false.
Proof.
  intros Hp s Hs. unfold rewrite_purpose.
  destruct (contains "player_role" s); [|exact Hs].
  destruct Hp as [<-|[<-|[]]]; reflexivity.
Qed.

(** The rules are idempotent on a line. *)
Lemma contains_team_id_line (tid : string) :
  contains "team_id" (team_id_line tid) = true.
Proof. reflexivity. Qed.

Lemma contains_player_id_line (pid : string) :
  contains "player_id" (player_id_line pid) = true.
Proof. reflexivity. Qed.

Lemma contains_team_id_in_player_id_line (pid : string) :
  contains "team_id" (player_id_line pid) = contains "team_id" pid.
Proof.
  unfold player_id_line.
  change ("      player_id: " ++ pid ++ " # 1 | 2 | 3 | 4 | 5" ++ nl)
    with ("      player_id:"
          ++ String " "%char (pid ++ String " "%char ("# 1 | 2 | 3 | 4 | 5"
                                                     ++ nl))).
  rewrite !contains_sep by reflexivity.
  change (contains "team_id" "      player_id:") with false.
  change (contains "team_id" ("# 1 | 2 | 3 | 4 | 5" ++ nl)) with false.
  now rewrite orb_false_r.
Qed.

Lemma rewrite_ids_idem (tid pid line : string) :
  contains "team_id" pid = false ->
  rewrite_ids tid pid (rewrite_ids tid pid line) = rewrite_ids tid pid line.
Proof.
  intros Hp.
  assert (E : rewrite_ids tid pid line
              = if contains "team_id" line then team_id_line tid
                else if contains "player_id" line then player_id_line pid
                     else line) by reflexivity.
  destruct (contains "team_id" line) eqn:Ht;
    [|destruct (contains "player_id" line) eqn:Hq]; rewrite E.
  - unfold rewrite_ids. now rewrite contains_team_id_line.
  - unfold rewrite_ids.
    now rewrite contains_team_id_in_player_id_line, Hp,
      contains_player_id_line.
  - unfold rewrite_ids. now rewrite Ht, Hq.
Qed.

Lemma rewrite_purpose_idem (p line : string) :
  rewrite_purpose p (rewrite_purpose p line) = rewrite_purpose p line.
Proof.
  assert (E : rewrite_purpose p line
              = if contains "player_role" line then player_role_line p
                else line) by reflexivity.
  destruct (contains "player_role" line) eqn:H; rewrite E.
  - reflexivity.
  - unfold rewrite_purpose. now rewrite H.
Qed.

Lemma map_idem {A : Type} (f : A -> A) (l : list A) :
  (forall x, f (f x) = f x) -> map f (map f l) = map f l.
Proof.
  intros H. rewrite map_map. apply map_ext. exact H.
Qed.

Lemma in_list_In (x : string) (l : list string) :
  in_list x l = true <-> In x l.
Proof.
  unfold in_list. rewrite existsb_exists. split.
  - intros (y & Hy & E). apply String.eqb_eq in E. now subst.
  - intros H. exists x. split; [exact H | apply String.eqb_refl].
Qed.

Lemma in_list_not_In (x : string) (l : list string) :
  in_list x l = false <-> ~ In x l.
Proof.
  rewrite <- in_list_In. now destruct (in_list x l).
Qed.

Lemma input_run (prompt line : string) (rest : list string) (w : World) :
  stdin w = line :: rest ->
  input prompt w
  = (Ret line,
     mkWorld (config_yaml w) rest (config w) (calls w)
             (log w ++ [EvInput prompt])%list).
Proof.
  intros H. unfold input. step. simpl. now rewrite H.
Qed.

(** The first loop of [configure_purpose] only reads. *)
Lemma scan_current_purpose_pure (lines : list string) (w : World) :
  snd (scan_current_purpose lines w) = w.
Proof.
  induction lines as [|line lines IH]; simpl; [reflexivity|].
  destruct (contains "player_role" line); [|exact IH].
  now destruct (split_on DQUOTE (lstrip line)) as [|? [|? ?]].
Qed.

Lemma scan_current_purpose_run (lines : list string) (w : World)
  (cur : string) :
  fst (scan_current_purpose lines w) = Ret cur ->
  scan_current_purpose lines w = (Ret cur, w).
Proof.
  intros H. rewrite (surjective_pairing (scan_current_purpose lines w)).
  now rewrite H, scan_current_purpose_pure.
Qed.

(** [configure_purpose] on an answer that is one of the two roles. *)
Lemma configure_purpose_valid (w : World) (inp cur : string)
  (rest : list string) :
  stdin w = inp :: rest ->
  fst (scan_current_purpose (lines_read w) w) = Ret cur ->
  In (lower (strip inp)) ["striker"; "goal_keeper"] ->
  configure_purpose w
  = (Ret tt,
     mkWorld (concat_lines (map (rewrite_purpose (lower (strip inp)))
                                (lines_read w)))
             rest (config w) (calls w)
             (log w ++ [EvPrint ("Current purpose: " ++ cur);
                        EvInput purpose_prompt; EvTruncate]
              ++ flat_map (purpose_events (lower (strip inp)))
                          (lines_read w))%list).
Proof.
  intros Hin Hscan Hp. unfold configure_purpose.
  step.
  erewrite bind_run; [| apply scan_current_purpose_run; exact Hscan].
  step.
  erewrite bind_run; [| apply input_run; exact Hin].
  cbv zeta.
  assert (T : truthy (lower (strip inp)) = true)
    by (destruct Hp as [<-|[<-|[]]]; reflexivity).
  apply in_list_In in Hp. rewrite Hp, T.
  change (negb true) with false. cbv iota.
  step. step.
  rewrite write_purpose_loop. simpl.
  rewrite <- !app_assoc. reflexivity.
Qed.

(** [configure_purpose] on any other answer. *)
Lemma configure_purpose_invalid (w : World) (inp cur : string)
  (rest : list string) :
  stdin w = inp :: rest ->
  fst (scan_current_purpose (lines_read w) w) = Ret cur ->
  ~ In (lower (strip inp)) ["striker"; "goal_keeper"] ->
  configure_purpose w
  = (Ret tt,
     mkWorld (config_yaml w) rest (config w) (calls w)
             (log w ++ [EvPrint ("Current purpose: " ++ cur);
                        EvInput purpose_prompt;
                        EvPrint invalid_purpose_message])%list).
Proof.
  intros Hin Hscan Hp. unfold configure_purpose.
  step.
  erewrite bind_run; [| apply scan_current_purpose_run; exact Hscan].
  step.
  erewrite bind_run; [| apply input_run; exact Hin].
  cbv zeta.
  apply in_list_not_In in Hp. rewrite Hp. unfold print, emit. simpl.
  rewrite <- !app_assoc. reflexivity.
Qed.

Lemma frame_of_map (f : string -> string) (is_key : string -> bool)
  (before after : string) :
  (forall line, is_key line = false -> f line = line) ->
  readlines after = map f (readlines before) ->
  frame_kept is_key before after.
Proof.
  intros Hf E. unfold frame_kept. rewrite E. split.
  - apply length_map.
  - intros i line Hi Hk. rewrite nth_error_map, Hi. simpl.
    now rewrite Hf.
Qed.

Lemma rewrite_ids_frame (tid pid line : string) :
  ids_key line = false -> rewrite_ids tid pid line = line.
Proof.
  unfold ids_key, rewrite_ids. intros H.
  apply orb_false_iff in H as [-> ->]. reflexivity.
Qed.

Lemma rewrite_purpose_frame (p line : string) :
  purpose_key line = false -> rewrite_purpose p line = line.
Proof. unfold purpose_key, rewrite_purpose. now intros ->. Qed.

(** After a rewrite with one of the two roles, the first loop of
    [configure_purpose] finds a quoted value again. *)
Lemma scan_rewritten (p : string) (lines : list string) (w : World) :
  In p ["striker"; "goal_keeper"] ->
  exists cur,
    scan_current_purpose (map (rewrite_purpose p) lines) w = (Ret cur, w).
Proof.
  intros Hp. induction lines as [|line lines IH].
  - now exists "".
  - simpl map. unfold rewrite_purpose at 1.
    destruct (contains "player_role" line) eqn:H.
    + exists p. destruct Hp as [<-|[<-|[]]]; reflexivity.
    + simpl. rewrite H. exact IH.
Qed.

Lemma has_char_lstrip (c : ascii) (s : string) :
  has_char c s = false -> has_char c (lstrip s) = false.
Proof.
  induction s as [|x s IH]; [reflexivity|].
  intros H. simpl. destruct (isspace x); [|exact H].
  simpl in H. apply orb_false_iff in H as [_ H]. now apply IH.
Qed.

(** The first loop of [configure_purpose], by the first line that holds
    [player_role]. *)
Lemma scan_current_purpose_find (lines : list string) (w : World) :
  scan_current_purpose lines w
  = match find (contains "player_role") lines with
    | None => (Ret "", w)
    | Some line =>
        match nth_error (split_on DQUOTE (lstrip line)) 1 with
        | Some current_purpose => (Ret current_purpose, w)
        | None => (Exc IndexError, w)
        end
    end.
Proof.
  induction lines as [|line lines IH]; [reflexivity|].
  cbn [scan_current_purpose find].
  destruct (contains "player_role" line); [|exact IH].
  now destruct (nth_error (split_on DQUOTE (lstrip line)) 1).
Qed.

(** The first loop either finds a value or fails on a line without
    quotes; it changes nothing. *)
Lemma scan_current_purpose_cases (lines : list string) (w : World) :
  (exists cur, scan_current_purpose lines w = (Ret cur, w))
  \/ scan_current_purpose lines w = (Exc IndexError, w).
Proof.
  rewrite scan_current_purpose_find.
  destruct (find (contains "player_role") lines) as [line|];
    [|left; now exists ""].
  destruct (nth_error (split_on DQUOTE (lstrip line)) 1) as [cur|];
    [left; now exists cur | now right].
Qed.

(** When the first loop fails, [configure_purpose] has done nothing. *)
Lemma configure_purpose_scan_fails (w : World) :
  scan_current_purpose (lines_read w) w = (Exc IndexError, w) ->
  configure_purpose w = (Exc IndexError, w).
Proof.
  intros H. unfold configure_purpose.
  erewrite bind_run; [| reflexivity].
  apply bind_exc. exact H.
Qed.

Lemma frame_kept_refl (is_key : string -> bool) (content : string) :
  frame_kept is_key content content.
Proof. split; [reflexivity | intros i line H _; exact H]. Qed.

Section Patch.

Variable sys : nat -> list string -> CompletedProcess.
Variable CalledProcessError_str : list string -> Z -> string.

(** C5 (as amended).  On a [config.yaml] without carriage returns the
    two rewrites keep the number and the order of the lines, and every
    line that holds no target key is found again byte for byte: the
    rewrite made by [apply_configuration], whenever the IP has its four
    octets and team and player id are free of line feeds, on every path
    through the network steps; and the rewrite made by
    [configure_purpose], whenever one of the two roles is typed. *)
Theorem C5_rewrite_keeps_other_lines (w : World) :
  has_char CR (config_yaml w) = false ->
  (forall (cfg : WifiConfig) (tid pid : string),
     skipn 2 (split_on "."%char (ip cfg)) = [tid; pid] ->
     has_char LF tid = false ->
     has_char LF pid = false ->
     frame_kept ids_key (config_yaml w)
                (config_yaml (snd (apply_configuration
                                     sys CalledProcessError_str cfg w))))
  /\ (forall (inp : string) (rest : list string),
        stdin w = inp :: rest ->
        In (lower (strip inp)) ["striker"; "goal_keeper"] ->
        frame_kept purpose_key (config_yaml w)
                   (config_yaml (snd (configure_purpose w)))).
Proof.
  intros Hcr.
  assert (L : lines_read w = readlines (config_yaml w))
    by (unfold lines_read; now rewrite universal_newlines_id).
  split.
  - intros cfg tid pid Hip Ht Hp.
    apply (frame_of_map (rewrite_ids tid pid)).
    + apply rewrite_ids_frame.
    + rewrite (apply_configuration_file _ _ _ _ tid pid Hip), L.
      apply readlines_concat, map_Lines;
        [now apply rewrite_ids_rule | apply readlines_Lines].
  - intros inp rest Hin Hrole.
    destruct (scan_current_purpose_cases (lines_read w) w)
      as [[cur Hscan]|Hfail].
    + apply (frame_of_map (rewrite_purpose (lower (strip inp)))).
      * apply rewrite_purpose_frame.
      * rewrite (configure_purpose_valid w inp cur rest Hin
                   (f_equal fst Hscan) Hrole).
        simpl. rewrite L.
        apply readlines_concat, map_Lines;
          [now apply rewrite_purpose_rule | apply readlines_Lines].
    + rewrite (configure_purpose_scan_fails w Hfail).
      apply frame_kept_refl.
Qed.

(** C6 (as amended).  For every content of [config.yaml]: when team and
    player id hold no line break and the player id does not hold the
    text [team_id], running [apply_configuration] a second time,
    whatever the outside world answers then, leaves the file as the
    first run left it; and typing the same role twice into
    [configure_purpose] leaves it as the first answer left it. *)
Theorem C6_same_patch_twice (w : World) :
  (forall (cfg : WifiConfig)
          (sys2 : nat -> list string -> CompletedProcess)
          (err2 : list string -> Z -> string) (tid pid : string),
     skipn 2 (split_on "."%char (ip cfg)) = [tid; pid] ->
     has_char LF tid = false -> has_char CR tid = false ->
     has_char LF pid = false -> has_char CR pid = false ->
     contains "team_id" pid = false ->
     let w1 := snd (apply_configuration sys CalledProcessError_str
                                        cfg w) in
     config_yaml (snd (apply_configuration sys2 err2 cfg w1))
     = config_yaml w1)
  /\ (forall (inp : string) (rest : list string),
        stdin w = inp :: inp :: rest ->
        In (lower (strip inp)) ["striker"; "goal_keeper"] ->
        let w1 := snd (configure_purpose w) in
        config_yaml (snd (configure_purpose w1)) = config_yaml w1).
Proof.
  split.
  - intros cfg sys2 err2 tid pid Hip Htl Htc Hpl Hpc Hno w1.
    rewrite (apply_configuration_file sys2 err2 cfg w1 tid pid Hip).
    unfold lines_read at 1. subst w1.
    rewrite (apply_configuration_file _ _ cfg w tid pid Hip).
    unfold lines_read.
    rewrite reread_rewritten;
      [| now apply rewrite_ids_rule | now apply rewrite_ids_no_cr].
    rewrite map_idem; [reflexivity|].
    intros x. now apply rewrite_ids_idem.
  - intros inp rest Hin Hrole w1. subst w1.
    destruct (scan_current_purpose_cases (lines_read w) w)
      as [[cur Hscan]|Hfail];
      [| rewrite (configure_purpose_scan_fails w Hfail); cbn [snd];
         now rewrite (configure_purpose_scan_fails w Hfail)].
    apply (f_equal fst) in Hscan. cbn [fst] in Hscan.
    rewrite (configure_purpose_valid w inp cur (inp :: rest)
               Hin Hscan Hrole).
    cbn [snd].
    set (p := lower (strip inp)) in *.
    set (w1 := mkWorld _ _ _ _ _).
    assert (L1 : lines_read w1 = map (rewrite_purpose p) (lines_read w)).
    { unfold lines_read at 1. subst w1. cbn [config_yaml].
      unfold lines_read. apply reread_rewritten;
        [now apply rewrite_purpose_rule | now apply rewrite_purpose_no_cr]. }
    destruct (scan_rewritten p (lines_read w) w1 Hrole) as [cur1 Hs1].
    rewrite <- L1 in Hs1.
    rewrite (configure_purpose_valid w1 inp cur1 rest eq_refl
               (f_equal fst Hs1) Hrole).
    cbn [snd config_yaml]. fold p. rewrite L1.
    rewrite map_idem; [reflexivity|].
    intros x. apply rewrite_purpose_idem.
Qed.


End Patch.

(** C5 as it was stated fails on a file with Windows line ends: its
    first line, [brain:] CR LF, holds no key, and comes back as [brain:]
    LF. *)
Lemma C5_crlf_counterexample :
  ~ frame_kept ids_key crlf_yaml
      (config_yaml
         (snd (apply_configuration not_root no_error_text default_config
                                   (world_of crlf_yaml [])))).
Proof.
  intros [_ H].
  specialize (H 0 ("brain:" ++ String CR nl) eq_refl eq_refl).
  vm_compute in H. discriminate H.
Qed.

(** C5 on the sample file, for the default IP and the answer
    [striker]. *)
Lemma C5_sample_witness :
  frame_kept ids_key sample_yaml
    (config_yaml
       (snd (apply_configuration not_root no_error_text default_config
                                 (world_of sample_yaml ["striker"]))))
  /\ frame_kept purpose_key sample_yaml
       (config_yaml (snd (configure_purpose
                            (world_of sample_yaml ["striker"])))).
Proof.
  destruct (C5_rewrite_keeps_other_lines
              not_root no_error_text (world_of sample_yaml ["striker"])
              eq_refl) as [Hids Hrole].
  split.
  - apply (Hids default_config "57" "45"); reflexivity.
  - apply (Hrole "striker" []); [reflexivity | simpl; auto].
Defined.

(** C6 as it was stated fails for the IP [192.168.57.team_id]: the first
    run writes a player_id line that holds the text [team_id], and the
    second run turns that line into a team_id line. *)
Lemma C6_team_id_in_player_id_counterexample :
  let w1 := snd (apply_configuration not_root no_error_text odd_config
                                     (world_of sample_yaml [])) in
  config_yaml (snd (apply_configuration not_root no_error_text odd_config w1))
  <> config_yaml w1.
Proof. vm_compute. discriminate. Qed.

(** C6 on the sample file, for the default IP and the answer
    [goal_keeper] typed twice. *)
Lemma C6_sample_witness :
  (let w1 := snd (apply_configuration not_root no_error_text default_config
                    (world_of sample_yaml ["goal_keeper"; "goal_keeper"])) in
   config_yaml (snd (apply_configuration not_root no_error_text
                                         default_config w1))
   = config_yaml w1)
  /\ (let w1 := snd (configure_purpose
                       (world_of sample_yaml
                                 ["goal_keeper"; "goal_keeper"])) in
      config_yaml (snd (configure_purpose w1)) = config_yaml w1).
Proof.
  destruct (C6_same_patch_twice
              not_root no_error_text
              (world_of sample_yaml ["goal_keeper"; "goal_keeper"]))
    as [Hids Hrole].
  split.
  - apply (Hids default_config not_root no_error_text "57" "45");
      reflexivity.
  - apply (Hrole "goal_keeper" []); [reflexivity | simpl; auto].
Defined.


(** The second line of [comment_yaml] has the longer key
    [old_player_id]; it is rewritten all the same. *)
Example comment_yaml_rewritten :
  config_yaml (snd (apply_configuration not_root no_error_text
                      default_config (world_of comment_yaml [])))
  = team_id_line "57" ++ player_id_line "45" ++ "rate: 5" ++ nl.
Proof. reflexivity. Qed.

(* ===================================================================== *)
(** ** The privilege gate *)
(* ===================================================================== *)

Lemma commands_app (a b : list Event) :
  commands (a ++ b) = (commands a ++ commands b)%list.
Proof.
  induction a as [|e a IH]; [reflexivity|].
  destruct e; simpl; now rewrite IH.
Qed.

Lemma commands_ids_events (tid pid : string) (lines : list string) :
  commands (flat_map (ids_events tid pid) lines) = [].
Proof.
  induction lines as [|line lines IH]; [reflexivity|].
  simpl. rewrite commands_app, IH. unfold ids_events.
  destruct (contains "team_id" line); [reflexivity|].
  now destruct (contains "player_id" line).
Qed.

Lemma replay_file_app (a b : list Event) (content : string) :
  replay_file (a ++ b) content = replay_file b (replay_file a content).
Proof.
  revert content. induction a as [|e a IH]; intros content; [reflexivity|].
  destruct e; simpl; apply IH.
Qed.

Lemma replay_ids_events (tid pid : string) (lines : list string)
  (content : string) :
  replay_file (flat_map (ids_events tid pid) lines) content
  = content ++ concat_lines (map (rewrite_ids tid pid) lines).
Proof.
  revert content. induction lines as [|line lines IH]; intros content.
  - simpl. now rewrite append_nil_r.
  - simpl. rewrite replay_file_app, IH. unfold ids_events, rewrite_ids.
    destruct (contains "team_id" line); [|destruct (contains "player_id" line)];
      simpl; now rewrite append_assoc.
Qed.

Section PrivilegeGate.

Variable sys : nat -> list string -> CompletedProcess.
Variable CalledProcessError_str : list string -> Z -> string.

(** [apply_configuration] for a non-privileged user, when the IP has
    its four octets. *)
Lemma apply_configuration_not_root (cfg : WifiConfig) (w : World)
  (tid pid : string) :
  skipn 2 (split_on "."%char (ip cfg)) = [tid; pid] ->
  strip (stdout (sys (calls w) ["id"; "-u"])) <> "0" ->
  apply_configuration sys CalledProcessError_str cfg w
  = (Ret tt,
     mkWorld (concat_lines (map (rewrite_ids tid pid) (lines_read w)))
             (stdin w) (config w) (S (calls w))
             (log w
              ++ ([EvPrint ("Applying team and player id configurations..."
                            ++ nl);
                   EvTruncate]
                  ++ flat_map (ids_events tid pid) (lines_read w)
                  ++ [EvPrint (nl ++ "Applying configuration for "
                               ++ ssid cfg ++ "...")])
              ++ [EvRun ["id"; "-u"];
                  EvPrint "Error: This script must be run as root (use sudo)";
                  EvPrint "Please run: sudo python3 override_wifi_interactive.py"])%list).
Proof.
  intros Hip Hid. unfold apply_configuration.
  step.
  erewrite bind_run; [| unfold derive_ids; rewrite Hip; reflexivity].
  cbv beta iota.
  step. step.
  erewrite bind_run; [| apply write_ids_loop].
  step. step. cbn [calls].
  apply String.eqb_neq in Hid. rewrite Hid.
  unfold print, emit, bind. simpl.
  rewrite <- !app_assoc. reflexivity.
Qed.

(** [apply_configuration] when the IP does not have four octets: the
    unpacking raises before anything is written or run. *)
Lemma apply_configuration_bad_ip (cfg : WifiConfig) (w : World) :
  (forall tid pid, skipn 2 (split_on "."%char (ip cfg)) <> [tid; pid]) ->
  apply_configuration sys CalledProcessError_str cfg w
  = (Exc ValueError,
     mkWorld (config_yaml w) (stdin w) (config w) (calls w)
             (log w ++ [EvPrint ("Applying team and player id configurations..."
                                 ++ nl)])%list).
Proof.
  intros Hip. unfold apply_configuration.
  step.
  erewrite bind_exc; [reflexivity|].
  unfold derive_ids.
  destruct (skipn 2 (split_on "."%char (ip cfg))) as [|a [|b [|c l]]];
    try reflexivity.
  now destruct (Hip a b).
Qed.

(** C2.  For every configuration, when [id -u] does not answer [0],
    [apply_configuration] starts no command that changes the network.
    Either the IP does not unpack, and then nothing is run and the file
    is untouched; or [id -u] is the only command, and it is started
    after the rewritten [config.yaml], with team and player id patched,
    has been written in full. *)
Theorem C2_no_network_change_without_privilege (cfg : WifiConfig)
  (w : World) :
  strip (stdout (sys (calls w) ["id"; "-u"])) <> "0" ->
  let r := apply_configuration sys CalledProcessError_str cfg w in
  exists evs : list Event,
    log (snd r) = (log w ++ evs)%list
    /\ (forall cmd, In cmd (commands evs) -> mutating cmd = false)
    /\ ((fst r = Exc ValueError
         /\ config_yaml (snd r) = config_yaml w
         /\ commands evs = [])
        \/ (exists (tid pid : string) (before after : list Event),
              skipn 2 (split_on "."%char (ip cfg)) = [tid; pid]
              /\ fst r = Ret tt
              /\ evs = (before ++ EvRun ["id"; "-u"] :: after)%list
              /\ commands before = [] /\ commands after = []
              /\ replay_file before (config_yaml w)
                 = concat_lines (map (rewrite_ids tid pid) (lines_read w))
              /\ config_yaml (snd r)
                 = concat_lines (map (rewrite_ids tid pid)
                                     (lines_read w)))).
Proof.
  intros Hid r.
  destruct (skipn 2 (split_on "."%char (ip cfg)))
    as [|tid [|pid [|x l]]] eqn:Hip.
  1, 2, 4:
    subst r; rewrite apply_configuration_bad_ip by (rewrite Hip; discriminate);
    eexists; split; [reflexivity|]; split; [intros cmd []|];
    left; repeat split; reflexivity.
  subst r. rewrite (apply_configuration_not_root cfg w tid pid Hip Hid).
  eexists. split; [reflexivity|]. split.
  - intros cmd. rewrite !commands_app, commands_ids_events. simpl.
    intros [<-|[]]. reflexivity.
  - right. exists tid, pid. do 2 eexists.
    split; [reflexivity|]. split; [reflexivity|].
    split; [reflexivity|]. split.
    { now rewrite !commands_app, commands_ids_events. }
    split; [reflexivity|]. split; [|reflexivity].
    simpl. rewrite replay_file_app, replay_ids_events. reflexivity.
Qed.

End PrivilegeGate.

(** C2 on the sample file for the default configuration and user id
    1000. *)
Lemma C2_user_1000_witness :
  let r := apply_configuration not_root no_error_text default_config
                               (world_of sample_yaml []) in
  exists evs : list Event,
    log (snd r) = evs
    /\ (forall cmd, In cmd (commands evs) -> mutating cmd = false)
    /\ commands evs = [["id"; "-u"]]
    /\ config_yaml (snd r)
       = "brain:" ++ nl ++ team_id_line "57" ++ player_id_line "45"
         ++ player_role_line "striker".
Proof.
  destruct (C2_no_network_change_without_privilege
              not_root no_error_text default_config
              (world_of sample_yaml []))
    as (evs & Hlog & Hmut & _).
  - vm_compute. discriminate.
  - exists evs. split; [exact Hlog|]. split; [exact Hmut|].
    split; [|reflexivity].
    vm_compute in Hlog. rewrite <- Hlog. reflexivity.
Defined.

(* ===================================================================== *)
(** ** Verification of the connection *)
(* ===================================================================== *)

Lemma quiet_ret {A : Type} (a : A) : quiet (ret a) a.
Proof. intros w. now exists w. Qed.

Lemma quiet_print (text : string) : quiet (print text) tt.
Proof. intros w. eexists. split; reflexivity. Qed.

Lemma quiet_bind {A B : Type} (m : M A) (f : A -> M B) (a : A) (b : B) :
  quiet m a -> quiet (f a) b -> quiet (bind m f) b.
Proof.
  intros Hm Hf w. destruct (Hm w) as (w1 & E1 & C1).
  destruct (Hf w1) as (w2 & E2 & C2).
  exists w2. split; [now rewrite (bind_run _ _ _ _ _ E1)|congruence].
Qed.

Lemma quiet_for_each {A : Type} (l : list A) (body : A -> M unit) :
  (forall x, quiet (body x) tt) -> quiet (for_each l body) tt.
Proof.
  intros H. induction l as [|x l IH]; simpl.
  - apply quiet_ret.
  - eapply quiet_bind; [apply H | exact IH].
Qed.

Lemma quiet_print_lines_where (p : string -> bool) (text : string) :
  quiet (print_lines_where p text) tt.
Proof.
  apply quiet_for_each. intros line.
  destruct (p line); [apply quiet_print | apply quiet_ret].
Qed.

(** Closes a goal [quiet m a] for a sequence of prints that ends in a
    [ret]. *)
Ltac quiet_steps :=
  repeat first
    [ apply quiet_ret
    | apply quiet_print
    | apply quiet_print_lines_where
    | eapply quiet_bind ].

Section Verify.

Variable sys : nat -> list string -> CompletedProcess.
Variable CalledProcessError_str : list string -> Z -> string.

Lemma run_command_run (cmd : list string) (check : bool) (w : World) :
  exists w',
    run_command sys CalledProcessError_str cmd check w
    = (Ret (sys (calls w) cmd), w')
    /\ calls w' = S (calls w).
Proof.
  unfold run_command.
  erewrite bind_run; [| reflexivity].
  destruct (check && negb (returncode (sys (calls w) cmd) =? 0)%Z).
  - eexists. split; reflexivity.
  - eexists. split; reflexivity.
Qed.

(** [verify_connection] always returns, with the conjunction of its
    five checks on the answers of its five commands. *)
Lemma verify_connection_run (cfg : WifiConfig) (w : World) :
  exists w',
    verify_connection sys CalledProcessError_str cfg w
    = (Ret (check_active cfg (sys (calls w) cmd_active)
            && check_ip cfg (sys (calls w + 1) (cmd_addr cfg))
            && check_gateway cfg (sys (calls w + 2) cmd_route)
            && check_dns cfg (sys (calls w + 3) cmd_resolv)
            && check_ssid cfg (sys (calls w + 4) cmd_wifi_list)), w')
    /\ calls w' = calls w + 5.
Proof.
  unfold verify_connection, cmd_active, cmd_addr, cmd_route, cmd_resolv,
    cmd_wifi_list.
  cbv zeta.
  destruct (quiet_print "Verifying configuration..." w) as (w0 & E0 & C0).
  rewrite (bind_run _ _ _ _ _ E0).
  (* active connection *)
  destruct (run_command_run
              ["nmcli"; "connection"; "show"; "--active"] true w0)
    as (w1 & E1 & C1).
  rewrite (bind_run _ _ _ _ _ E1).
  rewrite C0 in *.
  set (r1 := sys (calls w) ["nmcli"; "connection"; "show"; "--active"])
    in *.
  match goal with
  | |- context [bind ?blk _ w1] =>
      assert (Q1 : quiet blk (check_active cfg r1))
  end.
  { unfold check_active. destruct (contains (ssid cfg) (stdout r1));
      cbn [negb]; quiet_steps. }
  destruct (Q1 w1) as (w1' & F1 & D1). rewrite (bind_run _ _ _ _ _ F1).
  (* address *)
  destruct (run_command_run
              ["ip"; "addr"; "show"; interface cfg] true w1')
    as (w2 & E2 & C2).
  rewrite (bind_run _ _ _ _ _ E2).
  replace (calls w1') with (calls w + 1) in * by lia.
  set (r2 := sys (calls w + 1) ["ip"; "addr"; "show"; interface cfg]) in *.
  match goal with
  | |- context [bind ?blk _ w2] =>
      assert (Q2 : quiet blk (check_active cfg r1 && check_ip cfg r2))
  end.
  { unfold check_ip. destruct (returncode r2 =? 0)%Z; cbn [negb andb].
    - destruct (found_correct_ip _ _);
        rewrite ?andb_true_r, ?andb_false_r; quiet_steps.
    - rewrite andb_false_r. quiet_steps. }
  destruct (Q2 w2) as (w2' & F2 & D2). rewrite (bind_run _ _ _ _ _ F2).
  (* gateway *)
  destruct (run_command_run
              ["ip"; "route"; "show"; "default"] true w2')
    as (w3 & E3 & C3).
  rewrite (bind_run _ _ _ _ _ E3).
  replace (calls w2') with (calls w + 2) in * by lia.
  set (r3 := sys (calls w + 2) ["ip"; "route"; "show"; "default"]) in *.
  match goal with
  | |- context [bind ?blk _ w3] =>
      assert (Q3 : quiet blk (check_active cfg r1 && check_ip cfg r2
                              && check_gateway cfg r3))
  end.
  { unfold check_gateway. destruct (contains (gateway cfg) (stdout r3));
      rewrite ?andb_true_r, ?andb_false_r; quiet_steps. }
  destruct (Q3 w3) as (w3' & F3 & D3). rewrite (bind_run _ _ _ _ _ F3).
  (* DNS *)
  destruct (run_command_run
              ["cat"; "/etc/resolv.conf"] true w3')
    as (w4 & E4 & C4).
  rewrite (bind_run _ _ _ _ _ E4).
  replace (calls w3') with (calls w + 3) in * by lia.
  set (r4 := sys (calls w + 3) ["cat"; "/etc/resolv.conf"]) in *.
  match goal with
  | |- context [bind ?blk _ w4] =>
      assert (Q4 : quiet blk (check_active cfg r1 && check_ip cfg r2
                              && check_gateway cfg r3
                              && check_dns cfg r4))
  end.
  { unfold check_dns.
    destruct ((returncode r4 =? 0)%Z && contains (dns cfg) (stdout r4));
      rewrite ?andb_true_r, ?andb_false_r; quiet_steps. }
  destruct (Q4 w4) as (w4' & F4 & D4). rewrite (bind_run _ _ _ _ _ F4).
  (* SSID *)
  destruct (run_command_run
              ["nmcli"; "device"; "wifi"; "list"; "--rescan"; "no"] true w4')
    as (w5 & E5 & C5).
  rewrite (bind_run _ _ _ _ _ E5).
  replace (calls w4') with (calls w + 4) in * by lia.
  set (r5 := sys (calls w + 4)
                 ["nmcli"; "device"; "wifi"; "list"; "--rescan"; "no"]) in *.
  match goal with
  | |- context [bind ?blk _ w5] =>
      assert (Q5 : quiet blk (check_active cfg r1 && check_ip cfg r2
                              && check_gateway cfg r3
                              && check_dns cfg r4
                              && check_ssid cfg r5))
  end.
  { unfold check_ssid. destruct (returncode r5 =? 0)%Z; cbn [andb].
    - destruct (ssid_eq _ _);
        rewrite ?andb_true_r, ?andb_false_r; quiet_steps.
    - rewrite andb_false_r. quiet_steps. }
  destruct (Q5 w5) as (w5' & F5 & D5). rewrite (bind_run _ _ _ _ _ F5).
  exists w5'. split; [reflexivity | lia].
Qed.

(** The result of [verify_connection], as the code computes it.  For
    every configuration and every answer of the outside world,
    [verify_connection] returns, and it returns true exactly when its
    five checks pass: the SSID is a substring of the active-connection
    text; the address command exits with 0 and some line of its output
    holds both ["inet "] and the text ["ip/subnet"] as substrings; the
    gateway is a substring of the default-route text; the resolver
    command exits with 0 and the DNS literal is a substring of its
    output; the WiFi-list command exits with 0 and the first row holding
    [" <interface> "] and a star, with two tokens or more, has the SSID
    as its second token. *)
Lemma verify_connection_five_checks (cfg : WifiConfig) (w : World) :
  exists (all_good : bool) (w' : World),
    verify_connection sys CalledProcessError_str cfg w
    = (Ret all_good, w')
    /\ (all_good = true <->
        check_active cfg (sys (calls w) cmd_active) = true
        /\ check_ip cfg (sys (calls w + 1) (cmd_addr cfg)) = true
        /\ check_gateway cfg (sys (calls w + 2) cmd_route) = true
        /\ check_dns cfg (sys (calls w + 3) cmd_resolv) = true
        /\ check_ssid cfg (sys (calls w + 4) cmd_wifi_list) = true).
Proof.
  destruct (verify_connection_run cfg w) as (w' & E & _).
  do 2 eexists. split; [exact E|].
  rewrite !andb_true_iff. tauto.
Qed.

End Verify.

(** C4 does not hold of the script.  The address check is to compare
    the token ["ip/subnet"]; the script tests whether that text occurs
    anywhere in an [inet] line.  When the interface carries
    [192.168.57.45/27] and the configuration asks for prefix length 2,
    no token of the address dump is equal to [192.168.57.45/2], so the
    address check, and with it the five checks of the statement, fail;
    and yet [verify_connection] prints that [192.168.57.45/2] is
    configured on the interface and returns true, because
    [192.168.57.45/2] is the beginning of [192.168.57.45/27]. *)
Theorem C4_wrong_prefix_length_is_verified :
  spec_check_ip_token prefix2_config (stdout answer_addr) = false
  /\ spec_five_checks prefix2_config answer_active answer_addr answer_route
                      answer_resolv answer_wifi_list
     = false
  /\ let r := verify_connection prefix27_world no_error_text prefix2_config
                                (world_of sample_yaml []) in
     fst r = Ret true
     /\ In (EvPrint "✓ IP 192.168.57.45/2 is configured on wlp146s0")
           (log (snd r)).
Proof.
  split; [reflexivity|]. split; [reflexivity|].
  cbv zeta. split; [vm_compute; reflexivity|].
  vm_compute. tauto.
Qed.

(** With the address [192.168.57.45/27] on the interface, the default
    configuration passes in the words of the statement as well. *)
Example verify_default_config :
  fst (verify_connection prefix27_world no_error_text default_config
                         (world_of sample_yaml []))
  = Ret true
  /\ spec_five_checks default_config answer_active answer_addr answer_route
                      answer_resolv answer_wifi_list
     = true.
Proof. split; vm_compute; reflexivity. Qed.

(* ===================================================================== *)
(** ** Configuring the purpose *)
(* ===================================================================== *)


Lemma input_eof (prompt : string) (w : World) :
  stdin w = [] ->
  input prompt w
  = (Exc EOFError,
     mkWorld (config_yaml w) (stdin w) (config w) (calls w)
             (log w ++ [EvInput prompt])%list).
Proof.
  intros H. unfold input. step. simpl. now rewrite H.
Qed.





(* ===================================================================== *)
(** ** The menu *)
(* ===================================================================== *)

Lemma print_then {B : Type} (text : string) (k : M B) (w : World) :
  (print text ;; k) w
  = k (mkWorld (config_yaml w) (stdin w) (config w) (calls w)
               (log w ++ [EvPrint text])%list).
Proof. reflexivity. Qed.

Lemma print_menu_run (w : World) :
  print_menu w
  = (Ret tt,
     mkWorld (config_yaml w) (stdin w) (config w) (calls w)
             (log w ++ menu_events)%list).
Proof.
  unfold print_menu, menu_events.
  repeat (rewrite print_then; cbn [config_yaml stdin config calls log]).
  unfold print, emit. cbn [config_yaml stdin config calls log].
  rewrite <- !app_assoc. reflexivity.
Qed.

Section Menu.

Variable sys : nat -> list string -> CompletedProcess.
Variable CalledProcessError_str : list string -> Z -> string.

(** An input without a branch gets the invalid-option message. *)
Lemma dispatch_unhandled (choice : string) (w : World) :
  ~ In choice handled_options ->
  dispatch sys CalledProcessError_str choice w
  = print "Invalid option. Please try again." w.
Proof.
  intros H. unfold dispatch.
  repeat match goal with
         | |- context [String.eqb choice ?k] =>
             destruct (String.eqb_spec choice k) as [E|_];
             [exfalso; apply H; rewrite E; simpl; tauto|]
         end.
  reflexivity.
Qed.

(** C10.  A turn of [main_menu] on the input [10] (which the menu
    shows as "Configure player id") runs no handler: it prints the
    menu, reads the line, prints the invalid-option message and goes
    on to the next turn; [config.yaml], the [config] object and the
    number of commands started are as before.  The turn is the same,
    word for word, for every input typed in ASCII that has no branch. *)
Theorem C10_option_10_is_unhandled (w : World) (line : string)
  (rest : list string) (fuel : nat) :
  stdin w = line :: rest ->
  strip line = "10"
  \/ (isascii line = true /\ ~ In (strip line) handled_options) ->
  let w' :=
    mkWorld (config_yaml w) rest (config w) (calls w)
            (log w ++ menu_events
             ++ [EvInput "Select option: ";
                 EvPrint "Invalid option. Please try again."])%list in
  menu_turn sys CalledProcessError_str w = (Ret tt, w')
  /\ main_menu sys CalledProcessError_str (S fuel) w
     = main_menu sys CalledProcessError_str fuel w'.
Proof.
  intros Hin Hchoice w'.
  assert (H : ~ In (strip line) handled_options).
  { destruct Hchoice as [E|[_ H]]; [|exact H].
    rewrite E. simpl. intros H.
    repeat destruct H as [H|H]; try discriminate H. exact H. }
  assert (T : menu_turn sys CalledProcessError_str w = (Ret tt, w')).
  { unfold menu_turn.
    erewrite bind_run; [| apply print_menu_run].
    erewrite bind_run; [| apply input_run; exact Hin].
    rewrite (dispatch_unhandled _ _ H).
    unfold print, emit. cbn [config_yaml stdin config calls log].
    subst w'. now rewrite <- !app_assoc. }
  split; [exact T|].
  cbn [main_menu]. now rewrite (bind_run _ _ _ _ _ T).
Qed.

End Menu.

(** C10 on the input [10] followed by [0]: after the turn for [10] the
    menu is still running, and the next turn exits. *)
Lemma C10_typed_10_witness :
  let w := world_of sample_yaml ["10"; "0"] in
  let w' :=
    mkWorld sample_yaml ["0"] default_config 0
            (menu_events
             ++ [EvInput "Select option: ";
                 EvPrint "Invalid option. Please try again."])%list in
  menu_turn not_root no_error_text w = (Ret tt, w')
  /\ main_menu not_root no_error_text 2 w
     = main_menu not_root no_error_text 1 w'.
Proof.
  intros w w'.
  apply (C10_option_10_is_unhandled not_root no_error_text w "10" ["0"] 1).
  - reflexivity.
  - left. reflexivity.
Defined.

(* ===================================================================== *)
(** ** Listing the networks *)
(* ===================================================================== *)









Section Networks.

Variable sys : nat -> list string -> CompletedProcess.
Variable CalledProcessError_str : list string -> Z -> string.


End Networks.



(** Repeated SSIDs are listed once, in the order of their first row. *)
Example networks_of_repeated_listing :
  parse_networks repeated_listing = ["robocup-x"; "guest"].
Proof. reflexivity. Qed.

(* ===================================================================== *)
(** ** Resetting to DHCP *)
(* ===================================================================== *)

(** The first loop of [reset_to_dhcp] finds nothing when no line holds
    both [wifi] and [connected]. *)
Lemma find_wifi_interface_none (lines : list string) :
  forallb (fun line => negb (contains "wifi" (lower line)
                             && contains "connected" (lower line)))
          lines = true ->
  find_wifi_interface lines = None.
Proof.
  induction lines as [|line lines IH]; [reflexivity|].
  simpl. intros H. apply andb_true_iff in H as [Hl Hr].
  apply negb_true_iff in Hl. rewrite Hl. now apply IH.
Qed.

Section Dhcp.

Variable sys : nat -> list string -> CompletedProcess.
Variable CalledProcessError_str : list string -> Z -> string.

(** When the status command succeeds and its first loop finds no
    interface, [reset_to_dhcp] reports it and stops: the status command
    is the only one it has started. *)
Lemma reset_to_dhcp_nothing_found (w : World) :
  returncode (sys (calls w) cmd_status) = 0%Z ->
  find_wifi_interface (splitlines (stdout (sys (calls w) cmd_status)))
  = None ->
  reset_to_dhcp sys CalledProcessError_str w
  = (Ret tt,
     mkWorld (config_yaml w) (stdin w) (config w) (S (calls w))
             (log w ++ [EvPrint (nl ++ "Resetting to DHCP...");
                        EvRun cmd_status;
                        EvPrint no_active_wifi_message])%list).
Proof.
  intros Hrc Hnone. unfold reset_to_dhcp.
  rewrite print_then. cbn [config_yaml stdin config calls log].
  erewrite bind_run;
    [| unfold run_command; erewrite bind_run; [| reflexivity];
       cbn [calls]; fold cmd_status; rewrite Hrc; reflexivity].
  fold cmd_status. rewrite Hrc. cbn [Z.eqb negb]. cbv zeta.
  rewrite Hnone. unfold not_, print, emit.
  cbn [config_yaml stdin config calls log].
  now rewrite <- !app_assoc.
Qed.

End Dhcp.

(** On a host without any WiFi interface the report is made and nothing
    else is run. *)
Example reset_to_dhcp_on_wired_host :
  reset_to_dhcp (scripted [ok status_wired]) no_error_text
                (world_of sample_yaml [])
  = (Ret tt,
     mkWorld sample_yaml [] default_config 1
             [EvPrint (nl ++ "Resetting to DHCP...");
              EvRun cmd_status;
              EvPrint no_active_wifi_message]).
Proof.
  apply (reset_to_dhcp_nothing_found (scripted [ok status_wired])
           no_error_text (world_of sample_yaml []));
    reflexivity.
Qed.

(** C3 does not hold of the script.  On a device status whose only WiFi
    row reads [disconnected], no row is one of a connected WiFi
    interface; but the script looks for the text [connected] anywhere in
    the lower-cased row, finds it inside [disconnected], takes the
    interface as connected, reads its connection name [--], and starts
    [nmcli connection modify -- ipv4.method auto].  The report [No
    active WiFi connection found] is not made. *)
Theorem C3_disconnected_row_taken_as_connected :
  existsb connected_wifi_row (splitlines status_disconnected) = false
  /\ find_wifi_interface (splitlines status_disconnected) = Some "wlp146s0"
  /\ let r := reset_to_dhcp disconnected_host no_error_text
                            (world_of sample_yaml []) in
     commands (log (snd r))
     = [cmd_status;
        ["nmcli"; "device"; "show"; "wlp146s0"];
        ["nmcli"; "connection"; "modify"; "--"; "ipv4.method"; "auto"]]
     /\ existsb mutating (commands (log (snd r))) = true
     /\ ~ In (EvPrint no_active_wifi_message) (log (snd r)).
Proof.
  split; [reflexivity|]. split; [reflexivity|].
  cbv zeta. split; [reflexivity|]. split; [reflexivity|].
  vm_compute. intros H.
  repeat destruct H as [H|H]; try discriminate H. exact H.
Qed.

(* ===================================================================== *)
(** ** Runs that only talk to the network *)
(* ===================================================================== *)

Lemma after_nil (w : World) : after w [] = w.
Proof. destruct w. unfold after. simpl. now rewrite app_nil_r. Qed.

Lemma after_app (w : World) (e1 e2 : list Event) :
  after (after w e1) e2 = after w (e1 ++ e2).
Proof.
  unfold after. simpl. f_equal.
  - rewrite commands_app, length_app. lia.
  - now rewrite app_assoc.
Qed.

Lemma starts_ret {A : Type} (a : A) : starts_exactly (ret a) [].
Proof. intros w. exists a, []. now rewrite after_nil. Qed.

Lemma starts_print (text : string) : starts_exactly (print text) [].
Proof. intros w. exists tt, [EvPrint text]. split; reflexivity. Qed.

Lemma starts_bind {A B : Type} (m : M A) (f : A -> M B)
  (c1 c2 : list (list string)) :
  starts_exactly m c1 -> (forall a, starts_exactly (f a) c2) ->
  starts_exactly (bind m f) (c1 ++ c2).
Proof.
  intros Hm Hf w. destruct (Hm w) as (a & e1 & E1 & C1).
  destruct (Hf a (after w e1)) as (b & e2 & E2 & C2).
  exists b, (e1 ++ e2)%list. split.
  - now rewrite (bind_run _ _ _ _ _ E1), E2, after_app.
  - now rewrite commands_app, C1, C2.
Qed.

Lemma starts_bind_nil {A B : Type} (m : M A) (f : A -> M B) :
  starts_exactly m [] -> (forall a, starts_exactly (f a) []) ->
  starts_exactly (bind m f) [].
Proof. intros Hm Hf. now apply (starts_bind m f [] []). Qed.

Lemma starts_for_each {A : Type} (l : list A) (body : A -> M unit) :
  (forall x, starts_exactly (body x) []) ->
  starts_exactly (for_each l body) [].
Proof.
  intros H. induction l as [|x l IH]; simpl.
  - apply starts_ret.
  - apply starts_bind_nil; [apply H | intros _; exact IH].
Qed.

Lemma starts_for_each_enum {A : Type} (l : list A) (i0 : nat)
  (body : nat -> A -> M unit) :
  (forall i x, starts_exactly (body i x) []) ->
  starts_exactly (for_each_enum i0 l body) [].
Proof.
  intros H. revert i0. induction l as [|x l IH]; intros i0; simpl.
  - apply starts_ret.
  - apply starts_bind_nil; [apply H | intros _; apply IH].
Qed.

Lemma starts_print_lines_where (p : string -> bool) (text : string) :
  starts_exactly (print_lines_where p text) [].
Proof.
  apply starts_for_each. intros line.
  destruct (p line); [apply starts_print | apply starts_ret].
Qed.

Lemma commands_error_report (err : list string -> Z -> string)
  (cmd : list string) (check : bool) (r : CompletedProcess) :
  commands (error_report err cmd check r) = [].
Proof.
  unfold error_report.
  now destruct (check && negb (returncode r =? 0)%Z).
Qed.

Section NetworkRuns.

Variable sys : nat -> list string -> CompletedProcess.
Variable CalledProcessError_str : list string -> Z -> string.

(** [run_command] starts its command, hands back the answer whatever the
    exit status, and reports a failure only under [check]. *)
Lemma run_command_exact (cmd : list string) (check : bool) (w : World) :
  run_command sys CalledProcessError_str cmd check w
  = (Ret (sys (calls w) cmd),
     after w (EvRun cmd
              :: error_report CalledProcessError_str cmd check
                              (sys (calls w) cmd))).
Proof.
  unfold run_command, error_report.
  erewrite bind_run; [| reflexivity].
  destruct (check && negb (returncode (sys (calls w) cmd) =? 0)%Z).
  - unfold after, print, emit, bind. simpl.
    now rewrite <- app_assoc.
  - reflexivity.
Qed.

Lemma starts_subprocess_run (cmd : list string) :
  starts_exactly (subprocess_run sys cmd) [cmd].
Proof. intros w. exists (sys (calls w) cmd), [EvRun cmd]. now split. Qed.

Lemma starts_run_command (cmd : list string) (check : bool) :
  starts_exactly (run_command sys CalledProcessError_str cmd check) [cmd].
Proof.
  intros w. do 2 eexists. split; [apply run_command_exact|].
  simpl. now rewrite commands_error_report.
Qed.

End NetworkRuns.

(** Decomposes a computation built from prints, tests and commands; the
    tests are taken to guard prints only. *)
Ltac starts_steps :=
  repeat first
    [ progress cbv zeta
    | match goal with
      | |- starts_exactly (ret _) _ => apply starts_ret
      | |- starts_exactly (print _) _ => apply starts_print
      | |- starts_exactly (print_lines_where _ _) _ =>
          apply starts_print_lines_where
      | |- starts_exactly (run_command _ _ _ _) _ => apply starts_run_command
      | |- starts_exactly (subprocess_run _ _) _ =>
          apply starts_subprocess_run
      | |- starts_exactly (for_each _ _) _ =>
          apply starts_for_each; intros ?
      | |- starts_exactly (for_each_enum _ _ _) _ =>
          apply starts_for_each_enum; intros ? ?
      | |- starts_exactly (bind _ _) [] => apply starts_bind_nil; [| intros ?]
      | |- starts_exactly (bind _ _) _ => eapply starts_bind; [| intros ?]
      | |- starts_exactly (if ?c then _ else _) ?cmds =>
          first [ is_evar cmds; unify cmds (@nil (list string)) | idtac ];
          destruct c
      | |- starts_exactly (match ?l with [] => _ | _ :: _ => _ end) ?cmds =>
          first [ is_evar cmds; unify cmds (@nil (list string)) | idtac ];
          destruct l
      end ].

Lemma starts_eq {A : Type} (m : M A) (c c' : list (list string)) :
  starts_exactly m c -> c = c' -> starts_exactly m c'.
Proof. now intros H <-. Qed.

Section ReadOnly.

Variable sys : nat -> list string -> CompletedProcess.
Variable CalledProcessError_str : list string -> Z -> string.

Lemma starts_verify_connection (cfg : WifiConfig) :
  starts_exactly (verify_connection sys CalledProcessError_str cfg)
                 (verify_commands cfg).
Proof.
  eapply starts_eq; [unfold verify_connection; starts_steps | reflexivity].
Qed.

Lemma starts_display_config (cfg : WifiConfig) :
  starts_exactly (display_config cfg) [].
Proof. unfold display_config. starts_steps. Qed.

Lemma starts_get_available_interfaces :
  starts_exactly (get_available_interfaces sys CalledProcessError_str)
                 [cmd_device].
Proof.
  eapply starts_eq;
    [unfold get_available_interfaces; starts_steps | reflexivity].
Qed.

Lemma starts_get_available_networks :
  starts_exactly (get_available_networks sys CalledProcessError_str)
                 [cmd_wifi_scan_list].
Proof.
  eapply starts_eq;
    [unfold get_available_networks; starts_steps | reflexivity].
Qed.

Lemma starts_scan_networks :
  starts_exactly (scan_networks sys CalledProcessError_str)
                 [cmd_rescan; cmd_wifi_scan_list].
Proof.
  eapply starts_eq.
  - unfold scan_networks.
    eapply starts_bind; [apply starts_print | intros _].
    eapply starts_bind; [apply starts_run_command | intros _].
    eapply starts_bind; [apply starts_get_available_networks | intros l].
    destruct l; starts_steps.
  - reflexivity.
Qed.

Lemma starts_scan_interfaces :
  starts_exactly (scan_interfaces sys CalledProcessError_str) [cmd_device].
Proof.
  eapply starts_eq; [unfold scan_interfaces; starts_steps | reflexivity].
Qed.

Lemma starts_test_connection (cfg : WifiConfig) :
  starts_exactly (test_connection sys CalledProcessError_str cfg)
                 [cmd_ping cfg].
Proof.
  eapply starts_eq; [unfold test_connection; starts_steps | reflexivity].
Qed.

End ReadOnly.

Lemma starts_get_config : starts_exactly get_config [].
Proof. intros w. exists (config w), []. now rewrite after_nil. Qed.

Lemma print_after (text : string) (w : World) :
  print text w = (Ret tt, after w [EvPrint text]).
Proof. reflexivity. Qed.

Lemma numbered_loop (l : list string) (i0 : nat) (w : World) :
  for_each_enum i0 l (fun i x => print ("  " ++ str_nat i ++ ". " ++ x)) w
  = (Ret tt, after w (numbered_events i0 l)).
Proof.
  revert i0 w. induction l as [|x l IH]; intros i0 w.
  - simpl. now rewrite after_nil.
  - simpl for_each_enum. rewrite (bind_run _ _ _ _ _ (print_after _ w)).
    rewrite IH, after_app. reflexivity.
Qed.

Lemma commands_numbered_events (i0 : nat) (l : list string) :
  commands (numbered_events i0 l) = [].
Proof.
  revert i0. induction l as [|x l IH]; intros i0; [reflexivity|].
  simpl. apply IH.
Qed.

(** *** White space and tokens *)

Lemma no_space_app (a b : string) :
  no_space (a ++ b) = no_space a && no_space b.
Proof.
  induction a as [|c a IH]; simpl; [reflexivity|].
  now rewrite IH, andb_assoc.
Qed.

Lemma append_not_empty (a : string) (c : ascii) : a ++ String c "" <> "".
Proof. destruct a; discriminate. Qed.

(** Every token of [split] is non-empty and free of white space. *)
Lemma split_go_tokens (s cur : string) :
  no_space cur = true ->
  Forall (fun t => t <> "" /\ no_space t = true) (split_go cur s).
Proof.
  revert cur. induction s as [|c s IH]; intros cur Hcur; simpl.
  - destruct (String.eqb_spec cur ""); [constructor|].
    constructor; [now split | constructor].
  - destruct (isspace c) eqn:Hc.
    + destruct (String.eqb_spec cur "").
      * now apply IH.
      * constructor; [now split | now apply IH].
    + apply IH. rewrite no_space_app, Hcur. simpl. now rewrite Hc.
Qed.

Lemma split_tokens (s : string) :
  Forall (fun t => t <> "" /\ no_space t = true) (split s).
Proof. now apply split_go_tokens. Qed.

Lemma split_go_cur (s cur : string) : cur <> "" -> split_go cur s <> [].
Proof.
  revert cur. induction s as [|c s IH]; intros cur Hcur; simpl.
  - destruct (String.eqb_spec cur ""); [contradiction | discriminate].
  - destruct (isspace c).
    + destruct (String.eqb_spec cur ""); [contradiction | discriminate].
    + apply IH, append_not_empty.
Qed.

(** A text with a character that is not white space has a token. *)
Lemma split_go_nonspace (s cur : string) :
  has_nonspace s = true -> split_go cur s <> [].
Proof.
  revert cur. induction s as [|c s IH]; intros cur H; [discriminate|].
  simpl in *. destruct (isspace c); simpl in H.
  - destruct (String.eqb_spec cur ""); [now apply IH | discriminate].
  - apply split_go_cur, append_not_empty.
Qed.

Lemma rstrip_truthy (s : string) : truthy (rstrip s) = has_nonspace s.
Proof.
  induction s as [|c s IH]; [reflexivity|].
  simpl. unfold truthy in *. destruct (rstrip s) as [|d r].
  - simpl in IH. rewrite <- IH. destruct (isspace c); reflexivity.
  - simpl in IH. rewrite <- IH. simpl. now rewrite orb_true_r.
Qed.

Lemma lstrip_has_nonspace (s : string) :
  has_nonspace (lstrip s) = has_nonspace s.
Proof.
  induction s as [|c s IH]; [reflexivity|].
  simpl. destruct (isspace c) eqn:Hc; [exact IH|].
  simpl. now rewrite Hc.
Qed.

(** [line.strip()] is not empty exactly when the line has a character
    that is not white space. *)
Lemma strip_truthy (s : string) : truthy (strip s) = has_nonspace s.
Proof. unfold strip. now rewrite rstrip_truthy, lstrip_has_nonspace. Qed.

Lemma first_token_of_row (line : string) :
  truthy (strip line) = true ->
  (1 <=? List.length (split line)) = true
  /\ first_token line <> "" /\ no_space (first_token line) = true.
Proof.
  rewrite strip_truthy. intros H.
  pose proof (split_go_nonspace line "" H) as Hne.
  pose proof (split_tokens line) as Htok.
  unfold first_token, split in *.
  destruct (split_go "" line) as [|t ts]; [contradiction|].
  inversion Htok as [|? ? [H1 H2] _]; subst. now repeat split.
Qed.

(** The loop of [get_available_interfaces] appends the first column of
    every WiFi row, in the order of the rows; its two defensive tests
    (one token at least, a non-empty name) never fail. *)
Lemma interfaces_loop (lines interfaces : list string) :
  fold_left interfaces_step lines interfaces
  = (interfaces ++ map first_token (filter wifi_row lines))%list.
Proof.
  revert interfaces. induction lines as [|line lines IH]; intros interfaces.
  - simpl. now rewrite app_nil_r.
  - change (fold_left interfaces_step (line :: lines) interfaces)
      with (fold_left interfaces_step lines
                      (interfaces_step interfaces line)).
    rewrite IH. clear IH.
    change (filter wifi_row (line :: lines))
      with (if wifi_row line then line :: filter wifi_row lines
            else filter wifi_row lines).
    unfold interfaces_step, wifi_row. cbv zeta.
    destruct (truthy (strip line)) eqn:Hs; [|reflexivity].
    destruct (first_token_of_row line Hs) as (Hlen & Hne & _).
    destruct (contains "wifi" (lower line)); [|reflexivity].
    cbn [andb]. rewrite Hlen.
    fold (first_token line).
    assert (T : truthy (first_token line) = true)
      by (unfold truthy; now apply negb_true_iff, String.eqb_neq).
    rewrite T. cbn [andb].
    destruct (startswith "DEVICE" (first_token line)); cbn [negb];
      [reflexivity|].
    simpl map. now rewrite <- app_assoc.
Qed.

(* ===================================================================== *)
(** ** Looking at the network *)
(* ===================================================================== *)

Section Looking.

Variable sys : nat -> list string -> CompletedProcess.
Variable CalledProcessError_str : list string -> Z -> string.

Lemma get_available_interfaces_exact (w : World) :
  get_available_interfaces sys CalledProcessError_str w
  = (Ret (interfaces_of (sys (calls w) cmd_device)),
     after w [EvRun cmd_device]).
Proof.
  unfold get_available_interfaces, interfaces_of.
  rewrite (bind_run _ _ _ _ _ (run_command_exact sys _ _ false w)).
  fold cmd_device.
  destruct (negb (returncode (sys (calls w) cmd_device) =? 0)%Z);
    [reflexivity|].
  unfold ret. now rewrite interfaces_loop.
Qed.


(** X2.  [verify_connection] makes all five checks in every run: whatever
    the commands answer, and also after a check has failed, it starts
    exactly its five commands, in the same order, and returns; it leaves
    behind nothing but prints and these commands, none of which changes
    the network. *)
Theorem X2_verify_always_runs_five_commands (cfg : WifiConfig) (w : World) :
  exists (all_good : bool) (evs : list Event),
    verify_connection sys CalledProcessError_str cfg w
    = (Ret all_good, after w evs)
    /\ commands evs
       = [["nmcli"; "connection"; "show"; "--active"];
          ["ip"; "addr"; "show"; interface cfg];
          ["ip"; "route"; "show"; "default"];
          ["cat"; "/etc/resolv.conf"];
          ["nmcli"; "device"; "wifi"; "list"; "--rescan"; "no"]]
    /\ forallb (fun cmd => negb (mutating cmd)) (commands evs) = true.
Proof.
  destruct (starts_verify_connection sys CalledProcessError_str cfg w)
    as (b & evs & E & C).
  exists b, evs. split; [exact E|]. rewrite C. now split.
Qed.

(** X3.  The menu options 1 (show), 3 (scan networks), 4 (scan
    interfaces), 6 (verify) and 7 (ping) are read-only: the handler
    returns, [config.yaml], the [config] object and the console input are
    as before, and no command it starts changes the network. *)
Theorem X3_read_only_options (choice : string) (w : World) :
  In choice read_only_options ->
  exists evs : list Event,
    dispatch sys CalledProcessError_str choice w = (Ret tt, after w evs)
    /\ forallb (fun cmd => negb (mutating cmd)) (commands evs) = true.
Proof.
  assert (S : forall (m : M unit) cmds,
             starts_exactly m cmds ->
             forallb (fun cmd => negb (mutating cmd)) cmds = true ->
             exists evs, m w = (Ret tt, after w evs)
               /\ forallb (fun cmd => negb (mutating cmd)) (commands evs)
                  = true).
  { intros m cmds H Hc. destruct (H w) as ([] & evs & E & C).
    exists evs. now rewrite C. }
  unfold read_only_options. simpl.
  intros [<-|[<-|[<-|[<-|[<-|[]]]]]]; unfold dispatch;
    cbn [String.eqb Ascii.eqb Bool.eqb].
  - eapply (S _ []); [|reflexivity].
    apply (starts_bind_nil get_config); [apply starts_get_config|].
    intros c. apply starts_display_config.
  - eapply S; [apply starts_scan_networks | reflexivity].
  - eapply S; [apply starts_scan_interfaces | reflexivity].
  - destruct (starts_verify_connection sys CalledProcessError_str
                                       (config w) w)
      as (b & evs & E & C).
    exists evs. split; [|now rewrite C].
    unfold get_config. erewrite bind_run; [| reflexivity].
    now rewrite (bind_run _ _ _ _ _ E).
  - destruct (starts_test_connection sys CalledProcessError_str
                                     (config w) w)
      as ([] & evs & E & C).
    exists evs. split; [|now rewrite C].
    unfold get_config. erewrite bind_run; [| reflexivity]. exact E.
Qed.

Lemma get_available_networks_exact (w : World) :
  get_available_networks sys CalledProcessError_str w
  = (Ret (networks_of (sys (calls w) cmd_wifi_scan_list)),
     after w [EvRun cmd_wifi_scan_list]).
Proof.
  unfold get_available_networks, networks_of.
  rewrite (bind_run _ _ _ _ _ (run_command_exact sys _ _ false w)).
  fold cmd_wifi_scan_list.
  now destruct (negb (returncode (sys (calls w) cmd_wifi_scan_list) =? 0)%Z).
Qed.

(** X4.  [scan_networks] asks for a rescan and then lists, whatever the
    rescan answers: a failed rescan is reported and the listing is made
    all the same.  For a listing in ASCII it then prints what
    [get_available_networks] made of it: [No networks found] for an
    empty result (a failed listing included), otherwise the count and
    the SSIDs numbered from 1. *)
Theorem X4_scan_networks_rescans_then_lists (w : World) :
  isascii (stdout (sys (S (calls w)) cmd_wifi_scan_list)) = true ->
  let rescan := sys (calls w) cmd_rescan in
  let networks := networks_of (sys (S (calls w)) cmd_wifi_scan_list) in
  scan_networks sys CalledProcessError_str w
  = (Ret tt,
     after w ([EvPrint (nl ++ "Scanning for available networks...");
               EvRun cmd_rescan]
              ++ error_report CalledProcessError_str cmd_rescan true rescan
              ++ [EvRun cmd_wifi_scan_list]
              ++ networks_report networks)).
Proof.
  intros _ rescan networks. unfold scan_networks.
  rewrite (bind_run _ _ _ _ _ (print_after _ w)).
  rewrite (bind_run _ _ _ _ _ (run_command_exact sys _ _ true _)).
  rewrite (bind_run _ _ _ _ _ (get_available_networks_exact _)).
  rewrite !after_app.
  assert (I : calls (after w ([EvPrint (nl ++ "Scanning for available networks...")]
                              ++ EvRun cmd_rescan
                                 :: error_report CalledProcessError_str
                                      cmd_rescan true
                                      (sys (calls (after w [EvPrint (nl ++ "Scanning for available networks...")])) cmd_rescan)))
              = S (calls w)).
  { unfold after. cbn [calls]. rewrite commands_app. simpl.
    now rewrite commands_error_report. }
  unfold cmd_rescan in I |- *. rewrite I. fold cmd_rescan. fold networks.
  change (calls (after w [EvPrint (nl ++ "Scanning for available networks...")]))
    with (calls w). fold rescan.
  unfold networks_report.
  destruct networks as [|n ns].
  - rewrite (print_after _ _), after_app. do 2 f_equal.
    simpl. now rewrite <- !app_assoc.
  - rewrite (bind_run _ _ _ _ _ (print_after _ _)), numbered_loop.
    rewrite !after_app. do 2 f_equal.
    simpl. now rewrite <- !app_assoc.
Qed.

End Looking.

(** On the device table of the specification's example the result is
    [wlan0]. *)
Example interfaces_of_device_table :
  fst (get_available_interfaces (scripted [ok device_table]) no_error_text
                                (world_of sample_yaml []))
  = Ret ["wlan0"].
Proof. reflexivity. Qed.

(** The text [wifi] is looked for in the whole row: an Ethernet interface
    whose connection is named [Office-WiFi-Bridge] is returned too. *)
Example interfaces_of_wired_table :
  fst (get_available_interfaces (scripted [ok device_table_wired])
                                no_error_text (world_of sample_yaml []))
  = Ret ["eno1"].
Proof. reflexivity. Qed.

(** X4 on a host where the rescan succeeds and the listing shows two
    networks, each on two access points. *)
Lemma X4_repeated_listing_witness :
  scan_networks (scripted [ok ""; ok repeated_listing]) no_error_text
                (world_of sample_yaml [])
  = (Ret tt,
     after (world_of sample_yaml [])
           [EvPrint (nl ++ "Scanning for available networks...");
            EvRun cmd_rescan;
            EvRun cmd_wifi_scan_list;
            EvPrint (nl ++ "Found 2 networks:");
            EvPrint "  1. robocup-x";
            EvPrint "  2. guest"]).
Proof.
  apply (X4_scan_networks_rescans_then_lists
           (scripted [ok ""; ok repeated_listing]) no_error_text
           (world_of sample_yaml [])).
  reflexivity.
Defined.

(** X3 for option 6 on the world whose interface carries
    [192.168.57.45/27]. *)
Lemma X3_option_6_witness :
  exists evs : list Event,
    dispatch prefix27_world no_error_text "6" (world_of sample_yaml [])
    = (Ret tt, after (world_of sample_yaml []) evs)
    /\ forallb (fun cmd => negb (mutating cmd)) (commands evs) = true.
Proof.
  apply (X3_read_only_options prefix27_world no_error_text "6"
           (world_of sample_yaml [])).
  simpl. tauto.
Defined.

(* ===================================================================== *)
(** ** Changing the network *)
(* ===================================================================== *)

Lemma calls_after (w : World) (evs : list Event) :
  calls (after w evs) = List.length (commands evs) + calls w.
Proof. reflexivity. Qed.

Lemma bind_assoc {A B C : Type} (m : M A) (f : A -> M B) (g : B -> M C)
  (w : World) :
  bind (bind m f) g w = bind m (fun a => bind (f a) g) w.
Proof. unfold bind. now destruct (m w) as [[a|e|] w']. Qed.

Lemma print_at (text : string) (w : World) (evs : list Event) :
  print text (after w evs) = (Ret tt, after w (evs ++ [EvPrint text])).
Proof. now rewrite print_after, after_app. Qed.

Section Changing.

Variable sys : nat -> list string -> CompletedProcess.
Variable CalledProcessError_str : list string -> Z -> string.

(** [run_command] in a run that has started [n] commands so far. *)
Lemma run_command_at (cmd : list string) (check : bool) (w : World)
  (evs : list Event) (n : nat) :
  List.length (commands evs) = n ->
  run_command sys CalledProcessError_str cmd check (after w evs)
  = (Ret (sys (n + calls w) cmd),
     after w (evs ++ EvRun cmd
                     :: error_report CalledProcessError_str cmd check
                                     (sys (n + calls w) cmd))).
Proof.
  intros <-. now rewrite run_command_exact, after_app, calls_after.
Qed.

Lemma subprocess_run_at (cmd : list string) (w : World)
  (evs : list Event) (n : nat) :
  List.length (commands evs) = n ->
  subprocess_run sys cmd (after w evs)
  = (Ret (sys (n + calls w) cmd), after w (evs ++ [EvRun cmd])).
Proof.
  intros <-. unfold subprocess_run.
  rewrite <- after_app. reflexivity.
Qed.

(** Steps through a print, a captured command or a raw command at the
    head of the computation. *)
Ltac count_commands :=
  repeat first [ rewrite commands_app
               | rewrite commands_error_report
               | progress cbn [commands app List.length] ];
  reflexivity.

Ltac count_length :=
  repeat first [ rewrite commands_app
               | rewrite length_app
               | rewrite commands_error_report
               | progress cbn [commands app List.length] ];
  lia.

Ltac go_print := rewrite (bind_run _ _ _ _ _ (print_at _ _ _)); cbv beta.

Ltac go_run :=
  erewrite bind_run; [| apply run_command_at; count_commands]; cbv beta.

Ltac go_raw :=
  erewrite bind_run; [| apply subprocess_run_at; count_commands]; cbv beta.



(** [create_connection] in a run that has started [n] commands so far. *)
Lemma create_connection_at (cfg : WifiConfig) (w : World)
  (evs : list Event) (n : nat) :
  List.length (commands evs) = n ->
  let added := sys (1 + n + calls w) (cmd_add cfg) in
  exists evs' : list Event,
    create_connection sys CalledProcessError_str cfg (after w evs)
    = (Ret (returncode added =? 0)%Z, after w (evs ++ evs'))
    /\ commands evs'
       = cmd_delete cfg :: cmd_add cfg
         :: (if (returncode added =? 0)%Z && truthy (password cfg)
             then [cmd_psk cfg] else []).
Proof.
  intros <- added. unfold create_connection.
  go_print.
  erewrite bind_run;
    [| apply (run_command_at _ _ _ _ (List.length (commands evs)));
       count_length].
  cbv beta zeta.
  erewrite bind_run;
    [| apply (run_command_at _ _ _ _ (1 + List.length (commands evs)));
       count_length].
  cbv beta.
  fold (cmd_add cfg) (cmd_delete cfg). fold added.
  destruct (returncode added =? 0)%Z eqn:Hrc; cbn [negb andb].
  - destruct (truthy (password cfg)); cbv iota.
    + rewrite bind_assoc. go_print. rewrite bind_assoc.
      erewrite bind_run;
        [| apply (run_command_at _ _ _ _ (2 + List.length (commands evs)));
           count_length].
      unfold ret, bind. rewrite <- !app_assoc.
      eexists. split; [reflexivity|]. count_commands.
    + erewrite bind_run; [| reflexivity].
      unfold ret. rewrite <- !app_assoc.
      eexists. split; [reflexivity|]. count_commands.
  - go_print.
    unfold ret. rewrite <- !app_assoc.
    eexists. split; [reflexivity|]. count_commands.
Qed.

(** X5.  [create_connection] first deletes the profile named after the
    SSID, whatever that answers, and then adds the new one.  It returns
    true exactly when the add exits with 0.  The pre-shared key is set
    only after a successful add and only for a non-empty password, and
    what that last command answers does not change the result. *)
Theorem X5_create_connection_result_is_the_add (cfg : WifiConfig)
  (w : World) :
  let added := sys (S (calls w)) (cmd_add cfg) in
  exists evs : list Event,
    create_connection sys CalledProcessError_str cfg w
    = (Ret (returncode added =? 0)%Z, after w evs)
    /\ commands evs
       = cmd_delete cfg :: cmd_add cfg
         :: (if (returncode added =? 0)%Z && truthy (password cfg)
             then [cmd_psk cfg] else []).
Proof.
  intros added.
  destruct (create_connection_at cfg w [] 0 eq_refl) as (evs & E & C).
  rewrite after_nil in E. exists evs. split; [exact E | exact C].
Qed.



(** The part of [apply_configuration] up to the privilege check. *)
Lemma apply_configuration_patch (cfg : WifiConfig) (w : World)
  (tid pid : string) (k : M unit) :
  skipn 2 (split_on "."%char (ip cfg)) = [tid; pid] ->
  (print ("Applying team and player id configurations..." ++ nl) ;;
   ids <- derive_ids cfg ;;
   let '(team_id, player_id) := ids in
   lines <- read_config_lines ;;
   open_config_w ;;
   for_each lines (write_ids_line team_id player_id) ;;
   k) w
  = k (patched_world w tid pid).
Proof.
  intros Hip.
  step.
  erewrite bind_run; [| unfold derive_ids; rewrite Hip; reflexivity].
  cbv beta iota.
  step. step.
  erewrite bind_run; [| apply write_ids_loop].
  unfold patched_world. do 2 f_equal.
  cbn [log]. now rewrite <- !app_assoc.
Qed.

(** X7.  For a privileged user whose configured interface does not
    exist, [apply_configuration] stops at the existence gate: after the
    rewrite of [config.yaml] it starts [id -u], [nmcli device show] for
    the interface and, for the operator to read, a plain [nmcli device];
    it starts nothing that changes the network. *)
Theorem X7_missing_interface_stops_apply (cfg : WifiConfig) (w : World)
  (tid pid : string) :
  skipn 2 (split_on "."%char (ip cfg)) = [tid; pid] ->
  strip (stdout (sys (calls w) cmd_id)) = "0" ->
  (returncode (sys (S (calls w)) (cmd_show (interface cfg))) =? 0)%Z
  = false ->
  apply_configuration sys CalledProcessError_str cfg w
  = (Ret tt,
     after (patched_world w tid pid)
           [EvPrint (applying_message cfg);
            EvRun cmd_id;
            EvRun (cmd_show (interface cfg));
            EvPrint ("Error: Interface " ++ interface cfg
                     ++ " does not exist");
            EvPrint "Available interfaces:";
            EvRun cmd_device]).
Proof.
  intros Hip Hroot Hshow. unfold apply_configuration.
  rewrite (apply_configuration_patch cfg w tid pid _ Hip).
  set (pw := patched_world w tid pid).
  assert (Cpw : calls pw = calls w) by reflexivity.
  rewrite (bind_run _ _ _ _ _ (print_after _ pw)).
  go_raw. fold cmd_id. rewrite Cpw. change (0 + calls w) with (calls w).
  rewrite Hroot. cbn [String.eqb Ascii.eqb Bool.eqb negb].
  unfold check_interface_exists. rewrite bind_assoc. go_run.
  rewrite Cpw. change (1 + calls w) with (S (calls w)).
  fold (cmd_show (interface cfg)). unfold ret at 1.
  erewrite bind_run; [| reflexivity]. rewrite Hshow. cbn [negb].
  go_print. go_print. go_raw.
  unfold ret. unfold error_report. cbn [andb]. reflexivity.
Qed.



End Changing.

(** X7 on a host without the configured interface. *)
Lemma X7_missing_interface_witness :
  apply_configuration host_without_interface no_error_text default_config
                      (world_of sample_yaml [])
  = (Ret tt,
     after (patched_world (world_of sample_yaml []) "57" "45")
           [EvPrint (applying_message default_config);
            EvRun cmd_id;
            EvRun (cmd_show "wlp146s0");
            EvPrint "Error: Interface wlp146s0 does not exist";
            EvPrint "Available interfaces:";
            EvRun cmd_device]).
Proof.
  apply (X7_missing_interface_stops_apply
           host_without_interface no_error_text default_config
           (world_of sample_yaml []) "57" "45");
    reflexivity.
Defined.


(* ===================================================================== *)
(** ** The menu loop *)
(* ===================================================================== *)

Lemma tame_ret {A : Type} (a : A) : tame (ret a).
Proof. intros w. simpl. repeat split; [discriminate | lia | discriminate]. Qed.

Lemma tame_raise {A : Type} (e : Exn) :
  (forall code, e = SystemExit code -> code = 0%Z) -> tame (@raise A e).
Proof.
  intros H w. simpl. repeat split; [discriminate | lia |].
  intros code E. injection E as E. now apply H.
Qed.

Lemma tame_bind {A B : Type} (m : M A) (f : A -> M B) :
  tame m -> (forall a, tame (f a)) -> tame (bind m f).
Proof.
  intros Hm Hf w. destruct (Hm w) as (Ht & Hl & He).
  unfold bind. destruct (m w) as [[a|e|] w1]; simpl in *.
  - destruct (Hf a w1) as (Ht' & Hl' & He').
    repeat split; [exact Ht' | lia | exact He'].
  - repeat split; [discriminate | exact Hl |].
    intros code E. apply He. injection E as ->. reflexivity.
  - now destruct Ht.
Qed.

Lemma tame_starts {A : Type} (m : M A) (cmds : list (list string)) :
  starts_exactly m cmds -> tame m.
Proof.
  intros H w. destruct (H w) as (a & evs & E & _). rewrite E. simpl.
  repeat split; [discriminate | lia | discriminate].
Qed.

Lemma tame_print (text : string) : tame (print text).
Proof. apply (tame_starts _ []), starts_print. Qed.

Lemma tame_input (prompt : string) : tame (input prompt).
Proof.
  intros w. unfold input. erewrite bind_run; [| reflexivity].
  simpl. destruct (stdin w) as [|l rest]; simpl;
    repeat split; try discriminate; lia.
Qed.

Lemma tame_state {A : Type} (m : M A) :
  (forall w, exists a w', m w = (Ret a, w') /\ stdin w' = stdin w) ->
  tame m.
Proof.
  intros H w. destruct (H w) as (a & w' & E & Hs). rewrite E. simpl.
  rewrite Hs. repeat split; [discriminate | lia | discriminate].
Qed.

Lemma tame_for_each {A : Type} (l : list A) (body : A -> M unit) :
  (forall x, tame (body x)) -> tame (for_each l body).
Proof.
  intros H. induction l as [|x l IH]; simpl.
  - apply tame_ret.
  - apply tame_bind; [apply H | intros _; exact IH].
Qed.

Lemma tame_for_each_enum {A : Type} (l : list A) (i0 : nat)
  (body : nat -> A -> M unit) :
  (forall i x, tame (body i x)) -> tame (for_each_enum i0 l body).
Proof.
  intros H. revert i0. induction l as [|x l IH]; intros i0; simpl.
  - apply tame_ret.
  - apply tame_bind; [apply H | intros _; apply IH].
Qed.

Lemma tame_scan_current_purpose (lines : list string) :
  tame (scan_current_purpose lines).
Proof.
  induction lines as [|line lines IH]; simpl.
  - apply tame_ret.
  - destruct (contains "player_role" line); [|exact IH].
    destruct (split_on DQUOTE (lstrip line)) as [|? [|? ?]];
      [apply tame_raise; discriminate
      |apply tame_raise; discriminate
      |apply tame_ret].
Qed.

Ltac tame_by_state :=
  apply tame_state; intros ?; do 2 eexists; split; reflexivity.

(** Decomposes a computation of the script into its primitive steps. *)
Ltac tame_steps :=
  repeat first
    [ progress cbv zeta
    | match goal with
      | |- tame (ret _) => apply tame_ret
      | |- tame (print _) => apply tame_print
      | |- tame (input _) => apply tame_input
      | |- tame (raise _) => apply tame_raise; intros ? E; inversion E; auto
      | |- tame (run_command _ _ _ _) =>
          eapply tame_starts, starts_run_command
      | |- tame (subprocess_run _ _) =>
          eapply tame_starts, starts_subprocess_run
      | |- tame (print_lines_where _ _) =>
          eapply tame_starts, starts_print_lines_where
      | |- tame get_config => tame_by_state
      | |- tame (set_config _) => tame_by_state
      | |- tame read_config_lines => tame_by_state
      | |- tame open_config_w => tame_by_state
      | |- tame (f_write _) => tame_by_state
      | |- tame (scan_current_purpose _) => apply tame_scan_current_purpose
      | |- tame (for_each _ _) => apply tame_for_each; intros ?
      | |- tame (for_each_enum _ _ _) => apply tame_for_each_enum; intros ? ?
      | |- tame (bind _ _) => apply tame_bind; [| intros ?]
      | |- tame (match ?x with _ => _ end) => destruct x
      end ].

Section MenuLoop.

Variable sys : nat -> list string -> CompletedProcess.
Variable CalledProcessError_str : list string -> Z -> string.

Lemma tame_dispatch (choice : string) :
  tame (dispatch sys CalledProcessError_str choice).
Proof.
  unfold dispatch, display_config, edit_config, edit_field, scan_networks,
    scan_interfaces, apply_configuration, verify_connection,
    test_connection, reset_to_dhcp, configure_purpose, derive_ids,
    get_available_interfaces, get_available_networks,
    check_interface_exists, disconnect_current, create_connection,
    activate_connection, write_ids_line, write_purpose_line.
  tame_steps.
Qed.

(** A turn of the menu that returns has read a line at least. *)
Lemma menu_turn_outcome (w : World) :
  let r := menu_turn sys CalledProcessError_str w in
  fst r <> Timeout
  /\ (forall code, fst r = Exc (SystemExit code) -> code = 0%Z)
  /\ (forall a, fst r = Ret a ->
      List.length (stdin (snd r)) < List.length (stdin w)).
Proof.
  unfold menu_turn.
  rewrite (bind_run _ _ _ _ _ (print_menu_run w)).
  destruct (stdin w) as [|line rest] eqn:Hin.
  - erewrite bind_exc; [| apply input_eof; reflexivity]. simpl.
    repeat split; try discriminate.
  - erewrite bind_run; [| apply input_run; reflexivity].
    destruct (tame_dispatch (strip line)
                (mkWorld (config_yaml w) rest (config w) (calls w)
                         ((log w ++ menu_events)
                          ++ [EvInput "Select option: "])%list))
      as (Ht & Hl & He).
    cbn [config_yaml stdin config calls log] in *. simpl List.length.
    repeat split; [exact Ht | exact He |]. intros _ _. lia.
Qed.

(** The loop of [main_menu] on a console input shorter than the bound. *)
Lemma main_menu_ends (fuel : nat) (w : World) :
  List.length (stdin w) < fuel ->
  exists (e : Exn) (w' : World),
    main_menu sys CalledProcessError_str fuel w = (Exc e, w')
    /\ forall code, e = SystemExit code -> code = 0%Z.
Proof.
  revert w. induction fuel as [|fuel IH]; intros w Hlen; [lia|].
  cbn [main_menu].
  destruct (menu_turn_outcome w) as (Ht & He & Hl).
  unfold bind.
  destruct (menu_turn sys CalledProcessError_str w) as [[[]|e|] w1];
    simpl in *.
  - apply IH. specialize (Hl tt eq_refl). lia.
  - exists e, w1. split; [reflexivity|].
    intros code ->. now apply He.
  - now destruct Ht.
Qed.


(** X9.  [main_menu] ends only by an exception.  On a console input of
    finitely many lines the loop comes to an end within one turn per
    line and one more: by the exit of option 0, by the end of the input,
    or by an error that escapes a handler.  The only exit status it ever
    gives is 0. *)
Theorem X9_main_menu_ends_by_an_exception (fuel : nat) (w : World) :
  List.length (stdin w) < fuel ->
  exists (e : Exn) (w' : World),
    main_menu sys CalledProcessError_str fuel w = (Exc e, w')
    /\ forall code, e = SystemExit code -> code = 0%Z.
Proof. exact (main_menu_ends fuel w). Qed.


(** X10.  Option 0 leaves the menu with exit status 0: the turn prints
    the menu, reads the line, prints [Goodbye!] and raises the exit; no
    command is started and nothing is written. *)
Theorem X10_option_0_exits_with_status_0 (w : World) (line : string)
  (rest : list string) (fuel : nat) :
  stdin w = line :: rest ->
  strip line = "0" ->
  main_menu sys CalledProcessError_str (S fuel) w
  = (Exc (SystemExit 0%Z),
     mkWorld (config_yaml w) rest (config w) (calls w)
             (log w ++ menu_events
              ++ [EvInput "Select option: "; EvPrint "Goodbye!"])%list).
Proof.
  intros Hin Hzero. cbn [main_menu]. unfold menu_turn.
  apply bind_exc.
  rewrite (bind_run _ _ _ _ _ (print_menu_run w)).
  erewrite bind_run; [| apply input_run; exact Hin].
  rewrite Hzero. unfold dispatch.
  cbn [String.eqb Ascii.eqb Bool.eqb].
  unfold print, emit, raise, bind.
  cbn [config_yaml stdin config calls log].
  now rewrite <- !app_assoc.
Qed.

End MenuLoop.

(** X9 on three typed lines: an unknown option, the read-only option 1
    and then nothing more; the loop ends at the end of the input. *)
Lemma X9_three_lines_witness :
  exists (e : Exn) (w' : World),
    main_menu not_root no_error_text 4
              (world_of sample_yaml ["10"; "1"; "x"])
    = (Exc e, w')
    /\ forall code, e = SystemExit code -> code = 0%Z.
Proof.
  apply (X9_main_menu_ends_by_an_exception not_root no_error_text 4
           (world_of sample_yaml ["10"; "1"; "x"])).
  simpl. lia.
Defined.


(** X10 on the line [0]. *)
Lemma X10_typed_0_witness :
  main_menu not_root no_error_text 1 (world_of sample_yaml ["0"])
  = (Exc (SystemExit 0%Z),
     mkWorld sample_yaml [] default_config 0
             (menu_events
              ++ [EvInput "Select option: "; EvPrint "Goodbye!"])%list).
Proof.
  apply (X10_option_0_exits_with_status_0 not_root no_error_text
           (world_of sample_yaml ["0"]) "0" [] 0);
    reflexivity.
Defined.

(* ===================================================================== *)
(** ** The editor *)
(* ===================================================================== *)

Lemma wifi_config_eta (c : WifiConfig) :
  mkWifiConfig (ssid c) (interface c) (ip c) (subnet c) (gateway c)
               (password c) (dns c)
  = c.
Proof. now destruct c. Qed.

Lemma edited_self (w : World) : edited w (config w) (stdin w) [] = w.
Proof. destruct w. unfold edited. simpl. now rewrite app_nil_r. Qed.

Lemma print_ed (text : string) (w : World) (c : WifiConfig)
  (rest : list string) (evs : list Event) :
  print text (edited w c rest evs)
  = (Ret tt, edited w c rest (evs ++ [EvPrint text])).
Proof.
  unfold print, emit, edited. simpl. do 2 f_equal.
  - now rewrite commands_app, length_app, Nat.add_0_r.
  - now rewrite app_assoc.
Qed.

Lemma get_config_ed (w : World) (c : WifiConfig) (rest : list string)
  (evs : list Event) :
  get_config (edited w c rest evs) = (Ret c, edited w c rest evs).
Proof. reflexivity. Qed.

Lemma set_config_ed (c' : WifiConfig) (w : World) (c : WifiConfig)
  (rest : list string) (evs : list Event) :
  set_config c' (edited w c rest evs) = (Ret tt, edited w c' rest evs).
Proof. reflexivity. Qed.

Lemma input_ed (prompt line : string) (w : World) (c : WifiConfig)
  (rest : list string) (evs : list Event) :
  input prompt (edited w c (line :: rest) evs)
  = (Ret line, edited w c rest (evs ++ [EvInput prompt])).
Proof.
  rewrite (input_run prompt line rest) by reflexivity.
  unfold edited. simpl. do 2 f_equal.
  - now rewrite commands_app, length_app, Nat.add_0_r.
  - now rewrite app_assoc.
Qed.

(** One field of the editor: a blank answer keeps the value. *)
Lemma edit_field_ed (prompt line : string)
  (store : WifiConfig -> string -> WifiConfig) (w : World) (c : WifiConfig)
  (rest : list string) (evs : list Event) :
  edit_field prompt store (edited w c (line :: rest) evs)
  = (Ret tt,
     edited w (if truthy (strip line) then store c (strip line) else c)
            rest (evs ++ [EvInput prompt])).
Proof.
  unfold edit_field.
  rewrite (bind_run _ _ _ _ _ (input_ed _ _ _ _ _ _)). cbv zeta.
  destruct (truthy (strip line)); [|reflexivity].
  rewrite (bind_run _ _ _ _ _ (get_config_ed _ _ _ _)).
  apply set_config_ed.
Qed.

Lemma numbered_loop_ed (l : list string) (i0 : nat) (w : World)
  (c : WifiConfig) (rest : list string) (evs : list Event) :
  for_each_enum i0 l (fun i x => print ("  " ++ str_nat i ++ ". " ++ x))
                (edited w c rest evs)
  = (Ret tt, edited w c rest (evs ++ numbered_events i0 l)).
Proof.
  revert i0 evs. induction l as [|x l IH]; intros i0 evs.
  - simpl. now rewrite app_nil_r.
  - simpl for_each_enum. rewrite (bind_run _ _ _ _ _ (print_ed _ _ _ _ _)).
    rewrite IH. simpl. now rewrite <- app_assoc.
Qed.

Ltac ed_print := rewrite (bind_run _ _ _ _ _ (print_ed _ _ _ _ _)); cbv beta.
Ltac ed_get := rewrite (bind_run _ _ _ _ _ (get_config_ed _ _ _ _)); cbv beta.
Ltac ed_field :=
  rewrite (bind_run _ _ _ _ _ (edit_field_ed _ _ _ _ _ _ _)); cbv beta.

(** Counts the commands of a stretch of the log made of prints, prompts
    and at most a known command. *)
Ltac count_ed :=
  repeat first [ rewrite commands_app
               | rewrite commands_numbered_events
               | progress cbn [commands app List.length] ];
  reflexivity.

Section Editor.

Variable sys : nat -> list string -> CompletedProcess.
Variable CalledProcessError_str : list string -> Z -> string.

Lemma get_available_interfaces_ed (w : World) (c : WifiConfig)
  (rest : list string) (evs : list Event) :
  commands evs = [] ->
  get_available_interfaces sys CalledProcessError_str (edited w c rest evs)
  = (Ret (interfaces_of (sys (calls w) cmd_device)),
     edited w c rest (evs ++ [EvRun cmd_device])).
Proof.
  intros H. rewrite get_available_interfaces_exact.
  unfold after, edited. cbn [config_yaml stdin config calls log].
  rewrite commands_app, H. simpl. now rewrite <- app_assoc.
Qed.

(** The five fields after the interface. *)
Lemma edit_config_rest (w : World) (c : WifiConfig)
  (a3 a4 a5 a6 a7 : string) (rest : list string) (evs : list Event) :
  (c <- get_config ;;
   print (nl ++ "Current IP: " ++ ip c) ;;
   edit_field "New IP address (or Enter to keep): " with_ip ;;
   c <- get_config ;;
   print (nl ++ "Current Subnet: /" ++ subnet c) ;;
   edit_field "New subnet mask / (or Enter to keep): " with_subnet ;;
   c <- get_config ;;
   print (nl ++ "Current Gateway: " ++ gateway c) ;;
   edit_field "New gateway (or Enter to keep): " with_gateway ;;
   c <- get_config ;;
   print (nl ++ "Current DNS: " ++ dns c) ;;
   edit_field "New DNS server (or Enter to keep): " with_dns ;;
   c <- get_config ;;
   print (nl ++ "Current Password: "
          ++ (if truthy (password c) then password c else "(none)")) ;;
   edit_field "New password (or Enter to keep): " with_password ;;
   get_config)
    (edited w c (a3 :: a4 :: a5 :: a6 :: a7 :: rest) evs)
  = (let c' := mkWifiConfig (ssid c) (interface c)
                            (keep_or (ip c) a3) (keep_or (subnet c) a4)
                            (keep_or (gateway c) a5)
                            (keep_or (password c) a7)
                            (keep_or (dns c) a6) in
     (Ret c', edited w c' rest (evs ++ editor_tail_events c))).
Proof.
  ed_get. ed_print. ed_field.
  ed_get. ed_print. ed_field.
  ed_get. ed_print. ed_field.
  ed_get. ed_print. ed_field.
  ed_get. ed_print. ed_field.
  rewrite get_config_ed. cbv zeta.
  rewrite <- !app_assoc. unfold keep_or, editor_tail_events.
  destruct c as [s i p n g pw d].
  destruct (truthy (strip a3)), (truthy (strip a4)), (truthy (strip a5)),
    (truthy (strip a6)), (truthy (strip a7)); reflexivity.
Qed.

(** The editor up to the listing of the interfaces. *)
Lemma edit_config_head (w : World) (a1 : string) (rest : list string)
  (k : list string -> M WifiConfig) :
  stdin w = a1 :: rest ->
  (print (nl ++ "Configuration Editor") ;;
   print "Press Enter to keep current value, or type new value" ;;
   c <- get_config ;;
   print (nl ++ "Current SSID: " ++ ssid c) ;;
   edit_field "New SSID (or Enter to keep): " with_ssid ;;
   c <- get_config ;;
   print (nl ++ "Current Interface: " ++ interface c) ;;
   available_interfaces <- get_available_interfaces
                             sys CalledProcessError_str ;;
   k available_interfaces) w
  = k (interfaces_of (sys (calls w) cmd_device))
      (edited w (with_ssid (config w) (keep_or (ssid (config w)) a1)) rest
              (editor_head_events (config w))).
Proof.
  intros Hin.
  replace w with (edited w (config w) (a1 :: rest) []) at 1
    by (rewrite <- Hin; apply edited_self).
  ed_print. ed_print. ed_get. ed_print. ed_field. ed_get. ed_print.
  erewrite bind_run; [| apply get_available_interfaces_ed; count_ed].
  cbv beta.
  unfold keep_or, editor_head_events.
  destruct (config w) as [s i p n g pw d].
  destruct (truthy (strip a1)); reflexivity.
Qed.

(** The editor when no interface is listed. *)
Lemma edit_config_no_list (w : World) (a1 a3 a4 a5 a6 a7 : string)
  (rest : list string) :
  stdin w = a1 :: a3 :: a4 :: a5 :: a6 :: a7 :: rest ->
  interfaces_of (sys (calls w) cmd_device) = [] ->
  let c := config w in
  let c' := mkWifiConfig (keep_or (ssid c) a1) (interface c)
                         (keep_or (ip c) a3) (keep_or (subnet c) a4)
                         (keep_or (gateway c) a5) (keep_or (password c) a7)
                         (keep_or (dns c) a6) in
  edit_config sys CalledProcessError_str w
  = (Ret c',
     edited w c' rest (editor_head_events c ++ editor_tail_events c)).
Proof.
  intros Hin Hifs c c'. unfold edit_config.
  rewrite (edit_config_head w a1 _ _ Hin). rewrite Hifs.
  erewrite bind_run; [| reflexivity].
  rewrite edit_config_rest. subst c c'.
  destruct (config w) as [s i p n g pw d]. reflexivity.
Qed.

(** The editor when interfaces are listed and the answer to the list is
    not [0]. *)
Lemma edit_config_list (w : World) (a1 choice a3 a4 a5 a6 a7 : string)
  (rest interfaces : list string) :
  stdin w = a1 :: choice :: a3 :: a4 :: a5 :: a6 :: a7 :: rest ->
  interfaces_of (sys (calls w) cmd_device) = interfaces ->
  interfaces <> [] ->
  strip choice <> "0" ->
  let c := config w in
  let c' := mkWifiConfig (keep_or (ssid c) a1)
                         (chosen_interface interfaces choice (interface c))
                         (keep_or (ip c) a3) (keep_or (subnet c) a4)
                         (keep_or (gateway c) a5) (keep_or (password c) a7)
                         (keep_or (dns c) a6) in
  edit_config sys CalledProcessError_str w
  = (Ret c',
     edited w c' rest
            (editor_head_events c ++ editor_list_events interfaces
             ++ editor_tail_events c)).
Proof.
  intros Hin Hifs Hne Hchoice c c'. unfold edit_config.
  rewrite (edit_config_head w a1 _ _ Hin). rewrite Hifs.
  destruct interfaces as [|x l]; [contradiction|].
  rewrite !bind_assoc. ed_print.
  rewrite !bind_assoc.
  rewrite (bind_run _ _ _ _ _ (numbered_loop_ed _ _ _ _ _ _)).
  rewrite !bind_assoc. ed_print.
  rewrite !bind_assoc.
  rewrite (bind_run _ _ _ _ _ (input_ed _ _ _ _ _ _)). cbv beta zeta.
  apply String.eqb_neq in Hchoice. rewrite Hchoice.
  subst c c'. unfold chosen_interface.
  destruct (isdigit (strip choice)
            && (1 <=? int (strip choice))
            && (int (strip choice) <=? List.length (x :: l))).
  - rewrite !bind_assoc. ed_get.
    rewrite (bind_run _ _ _ _ _ (set_config_ed _ _ _ _ _)).
    rewrite edit_config_rest. unfold editor_list_events.
    destruct (config w) as [s i p n g pw d]. cbn.
    now rewrite <- !app_assoc.
  - erewrite bind_run; [| reflexivity].
    rewrite edit_config_rest. unfold editor_list_events.
    destruct (config w) as [s i p n g pw d]. cbn.
    now rewrite <- !app_assoc.
Qed.

(** X11.  When [nmcli device], answering in ASCII, lists no WiFi
    interface (or fails), the editor asks six questions: SSID, IP,
    subnet, gateway, DNS and password, in this order.  For answers
    typed in ASCII, each field becomes the stripped answer when the
    answer is not blank and keeps its value otherwise; the interface
    cannot be changed.  [nmcli device] is the only command started and
    [config.yaml] is not touched. *)
Theorem X11_editor_without_interface_list (w : World)
  (a1 a3 a4 a5 a6 a7 : string) (rest : list string) :
  stdin w = a1 :: a3 :: a4 :: a5 :: a6 :: a7 :: rest ->
  Forall (fun a => isascii a = true) [a1; a3; a4; a5; a6; a7] ->
  isascii (stdout (sys (calls w) cmd_device)) = true ->
  interfaces_of (sys (calls w) cmd_device) = [] ->
  let c := config w in
  let c' := mkWifiConfig (keep_or (ssid c) a1) (interface c)
                         (keep_or (ip c) a3) (keep_or (subnet c) a4)
                         (keep_or (gateway c) a5) (keep_or (password c) a7)
                         (keep_or (dns c) a6) in
  exists evs : list Event,
    edit_config sys CalledProcessError_str w
    = (Ret c', mkWorld (config_yaml w) rest c' (S (calls w))
                       (log w ++ evs)%list)
    /\ commands evs = [cmd_device].
Proof.
  intros Hin _ _ Hifs c c'.
  exists (editor_head_events c ++ editor_tail_events c)%list.
  split; [|reflexivity].
  now rewrite (edit_config_no_list w a1 a3 a4 a5 a6 a7 rest Hin Hifs).
Qed.

(** X12.  When interfaces are listed (by [nmcli device] answering in
    ASCII), the editor shows them numbered from 1 and asks for a choice
    after the SSID.  For answers typed in ASCII and a choice of at most
    4300 characters: a choice that is a number between 1 and the length
    of the list selects that interface; every other choice except [0]
    (blank, out of range, not a number) is passed over without a
    message and keeps the interface.  The other six fields behave as in
    the editor without a list. *)
Theorem X12_editor_choice_from_the_list (w : World)
  (a1 choice a3 a4 a5 a6 a7 : string) (rest interfaces : list string) :
  stdin w = a1 :: choice :: a3 :: a4 :: a5 :: a6 :: a7 :: rest ->
  Forall (fun a => isascii a = true) [a1; choice; a3; a4; a5; a6; a7] ->
  String.length (strip choice) <= 4300 ->
  isascii (stdout (sys (calls w) cmd_device)) = true ->
  interfaces_of (sys (calls w) cmd_device) = interfaces ->
  interfaces <> [] ->
  strip choice <> "0" ->
  let c := config w in
  let c' := mkWifiConfig (keep_or (ssid c) a1)
                         (chosen_interface interfaces choice (interface c))
                         (keep_or (ip c) a3) (keep_or (subnet c) a4)
                         (keep_or (gateway c) a5) (keep_or (password c) a7)
                         (keep_or (dns c) a6) in
  exists evs : list Event,
    edit_config sys CalledProcessError_str w
    = (Ret c', mkWorld (config_yaml w) rest c' (S (calls w))
                       (log w ++ evs)%list)
    /\ commands evs = [cmd_device]
    /\ incl (numbered_events 1 interfaces) evs.
Proof.
  intros Hin _ _ _ Hifs Hne Hchoice c c'.
  exists (editor_head_events c ++ editor_list_events interfaces
          ++ editor_tail_events c)%list.
  split; [|split].
  - rewrite (edit_config_list w a1 choice a3 a4 a5 a6 a7 rest interfaces
               Hin Hifs Hne Hchoice).
    unfold edited. do 2 f_equal.
    unfold editor_list_events.
    rewrite !commands_app, commands_numbered_events. reflexivity.
  - unfold editor_list_events.
    rewrite !commands_app, commands_numbered_events. reflexivity.
  - intros e He. unfold editor_list_events.
    rewrite !in_app_iff. tauto.
Qed.

(** X13.  Pressing Enter (or typing blanks only) at every question of
    the editor keeps the whole configuration, whether interfaces are
    listed or not (by [nmcli device] answering in ASCII): after as many
    blank lines as there are questions, six without a list of
    interfaces and seven with one, [edit_config] returns the [config]
    object with the values it had, and the lines typed after them are
    left on the console. *)
Theorem X13_enter_keeps_every_field (w : World)
  (blanks rest : list string) :
  stdin w = (blanks ++ rest)%list ->
  Forall (fun l => strip l = "") blanks ->
  isascii (stdout (sys (calls w) cmd_device)) = true ->
  List.length blanks
  = match interfaces_of (sys (calls w) cmd_device) with
    | [] => 6
    | _ :: _ => 7
    end ->
  exists evs : list Event,
    edit_config sys CalledProcessError_str w
    = (Ret (config w), edited w (config w) rest evs)
    /\ commands evs = [cmd_device].
Proof.
  intros Hin Hblank _ Hlen.
  assert (K : forall old l, strip l = "" -> keep_or old l = old)
    by (intros old l E; unfold keep_or; now rewrite E).
  destruct (interfaces_of (sys (calls w) cmd_device)) as [|x ifs] eqn:Hifs.
  - destruct blanks as [|l1 [|l2 [|l3 [|l4 [|l5 [|l6 [|l7 more]]]]]]];
      try discriminate Hlen.
    rewrite Forall_forall in Hblank.
    pose proof (Hblank l1 ltac:(simpl; tauto)) as B1.
    pose proof (Hblank l2 ltac:(simpl; tauto)) as B2.
    pose proof (Hblank l3 ltac:(simpl; tauto)) as B3.
    pose proof (Hblank l4 ltac:(simpl; tauto)) as B4.
    pose proof (Hblank l5 ltac:(simpl; tauto)) as B5.
    pose proof (Hblank l6 ltac:(simpl; tauto)) as B6.
    exists (editor_head_events (config w)
            ++ editor_tail_events (config w))%list.
    split; [|reflexivity].
    rewrite (edit_config_no_list w l1 l2 l3 l4 l5 l6 rest Hin Hifs).
    cbv zeta. rewrite !K by assumption.
    now rewrite wifi_config_eta.
  - destruct blanks
      as [|l1 [|l2 [|l3 [|l4 [|l5 [|l6 [|l7 [|l8 more]]]]]]]];
      try discriminate Hlen.
    rewrite Forall_forall in Hblank.
    pose proof (Hblank l1 ltac:(simpl; tauto)) as B1.
    pose proof (Hblank l2 ltac:(simpl; tauto)) as B2.
    pose proof (Hblank l3 ltac:(simpl; tauto)) as B3.
    pose proof (Hblank l4 ltac:(simpl; tauto)) as B4.
    pose proof (Hblank l5 ltac:(simpl; tauto)) as B5.
    pose proof (Hblank l6 ltac:(simpl; tauto)) as B6.
    pose proof (Hblank l7 ltac:(simpl; tauto)) as B7.
    exists (editor_head_events (config w) ++ editor_list_events (x :: ifs)
            ++ editor_tail_events (config w))%list.
    split.
    + rewrite (edit_config_list w l1 l2 l3 l4 l5 l6 l7 rest (x :: ifs)
                 Hin Hifs);
        [| discriminate | now rewrite B2].
      cbv zeta. rewrite !K by assumption.
      unfold chosen_interface. rewrite B2.
      cbn [isdigit String.eqb negb andb].
      now rewrite wifi_config_eta.
    + unfold editor_list_events.
      rewrite !commands_app, commands_numbered_events. reflexivity.
Qed.

End Editor.

(** X11 on a host where [nmcli device] fails: a new SSID and a new IP
    are typed, Enter is pressed at the other four questions. *)
Lemma X11_two_answers_witness :
  exists evs : list Event,
    edit_config (scripted []) no_error_text
                (world_of sample_yaml [" field-b "; "10.0.3.7"; ""; ""; ""; ""])
    = (Ret (with_ip (with_ssid default_config "field-b") "10.0.3.7"),
       mkWorld sample_yaml []
               (with_ip (with_ssid default_config "field-b") "10.0.3.7")
               1 evs)
    /\ commands evs = [cmd_device].
Proof.
  destruct (X11_editor_without_interface_list
              (scripted []) no_error_text
              (world_of sample_yaml
                        [" field-b "; "10.0.3.7"; ""; ""; ""; ""])
              " field-b " "10.0.3.7" "" "" "" "" [] eq_refl)
    as (evs & E & C).
  - repeat constructor.
  - reflexivity.
  - reflexivity.
  - exists evs. split; [exact E | exact C].
Defined.

(** X12 on a host with two WiFi interfaces: the answer [2] selects
    [wlan1]. *)
Lemma X12_second_interface_witness :
  exists evs : list Event,
    edit_config (scripted [ok two_wifi_table]) no_error_text
                (world_of sample_yaml [""; "2"; ""; ""; ""; ""; ""])
    = (Ret (with_interface default_config "wlan1"),
       mkWorld sample_yaml [] (with_interface default_config "wlan1")
               1 evs)
    /\ commands evs = [cmd_device]
    /\ incl (numbered_events 1 ["wlan0"; "wlan1"]) evs.
Proof.
  destruct (X12_editor_choice_from_the_list
              (scripted [ok two_wifi_table]) no_error_text
              (world_of sample_yaml [""; "2"; ""; ""; ""; ""; ""])
              "" "2" "" "" "" "" "" [] ["wlan0"; "wlan1"]
              eq_refl)
    as (evs & E & C & I).
  - repeat constructor.
  - simpl. lia.
  - reflexivity.
  - reflexivity.
  - discriminate.
  - discriminate.
  - exists evs. split; [exact E|]. split; [exact C | exact I].
Defined.

(** X13 on a host without a WiFi interface: six times Enter, and the
    [0] typed next is left for the menu. *)
Lemma X13_six_enters_witness :
  exists evs : list Event,
    edit_config (scripted []) no_error_text
                (world_of sample_yaml [""; ""; ""; ""; ""; ""; "0"])
    = (Ret default_config,
       edited (world_of sample_yaml [""; ""; ""; ""; ""; ""; "0"])
              default_config ["0"] evs)
    /\ commands evs = [cmd_device].
Proof.
  apply (X13_enter_keeps_every_field
           (scripted []) no_error_text
           (world_of sample_yaml [""; ""; ""; ""; ""; ""; "0"])
           [""; ""; ""; ""; ""; ""] ["0"]).
  - reflexivity.
  - repeat constructor.
  - reflexivity.
  - reflexivity.
Defined.

(* ===================================================================== *)
(** ** Files without the expected lines *)
(* ===================================================================== *)

Lemma find_none_forallb (lines : list string) :
  forallb (fun line => negb (contains "player_role" line)) lines = true ->
  find (contains "player_role") lines = None.
Proof.
  induction lines as [|line lines IH]; [reflexivity|].
  simpl. intros H. apply andb_true_iff in H as [Hl Hr].
  apply negb_true_iff in Hl. rewrite Hl. now apply IH.
Qed.

Lemma map_rewrite_purpose_id (p : string) (lines : list string) :
  forallb (fun line => negb (contains "player_role" line)) lines = true ->
  map (rewrite_purpose p) lines = lines
  /\ flat_map (purpose_events p) lines = map EvWrite lines.
Proof.
  induction lines as [|line lines IH]; [now split|].
  cbn [map flat_map forallb]. intros H.
  apply andb_true_iff in H as [Hl Hr].
  apply negb_true_iff in Hl. destruct (IH Hr) as [IH1 IH2].
  rewrite IH1, IH2. unfold rewrite_purpose, purpose_events.
  rewrite Hl. now split.
Qed.

Lemma map_rewrite_ids_id (tid pid : string) (lines : list string) :
  forallb (fun line => negb (ids_key line)) lines = true ->
  map (rewrite_ids tid pid) lines = lines.
Proof.
  induction lines as [|line lines IH]; [reflexivity|].
  simpl. intros H. apply andb_true_iff in H as [Hl Hr].
  apply negb_true_iff in Hl. now rewrite rewrite_ids_frame, IH.
Qed.

(** X14.  When the first line of [config.yaml] that holds [player_role]
    holds no double quote, [configure_purpose] raises [IndexError] while
    it looks for the current purpose: it has printed nothing, asked
    nothing and written nothing. *)
Theorem X14_unquoted_role_raises_index_error (w : World) (line : string) :
  find (contains "player_role") (lines_read w) = Some line ->
  has_char DQUOTE line = false ->
  configure_purpose w = (Exc IndexError, w).
Proof.
  intros Hfind Hq. unfold configure_purpose.
  erewrite bind_run; [| reflexivity].
  apply bind_exc. fold (lines_read w).
  rewrite scan_current_purpose_find, Hfind.
  now rewrite (split_on_no_sep DQUOTE _ (has_char_lstrip _ _ Hq)).
Qed.

(** X15.  When no line of [config.yaml] holds [player_role], the current
    purpose is shown as empty, and a valid answer changes nothing: the
    file, when it has no carriage return, is written back byte for byte,
    and nothing tells the operator that no role was set. *)
Theorem X15_role_missing_from_file (w : World) (inp : string)
  (rest : list string) :
  forallb (fun line => negb (contains "player_role" line)) (lines_read w)
  = true ->
  has_char CR (config_yaml w) = false ->
  stdin w = inp :: rest ->
  In (lower (strip inp)) ["striker"; "goal_keeper"] ->
  configure_purpose w
  = (Ret tt,
     mkWorld (config_yaml w) rest (config w) (calls w)
             (log w ++ [EvPrint "Current purpose: ";
                        EvInput purpose_prompt; EvTruncate]
              ++ map EvWrite (readlines (config_yaml w)))%list).
Proof.
  intros Hno Hcr Hin Hrole.
  assert (Hscan : fst (scan_current_purpose (lines_read w) w) = Ret "")
    by (now rewrite scan_current_purpose_find, (find_none_forallb _ Hno)).
  rewrite (configure_purpose_valid w inp "" rest Hin Hscan Hrole).
  destruct (map_rewrite_purpose_id (lower (strip inp)) _ Hno) as [-> ->].
  unfold lines_read. rewrite (universal_newlines_id _ Hcr).
  now rewrite concat_readlines.
Qed.

Section MissingLines.

Variable sys : nat -> list string -> CompletedProcess.
Variable CalledProcessError_str : list string -> Z -> string.

(** X16.  When the configured IP does not split on the dot into exactly
    four pieces, [apply_configuration] raises [ValueError] right after
    its first print: [config.yaml] is left as it was and no command is
    started. *)
Theorem X16_ip_without_four_octets_raises (cfg : WifiConfig) (w : World) :
  List.length (split_on "."%char (ip cfg)) <> 4 ->
  apply_configuration sys CalledProcessError_str cfg w
  = (Exc ValueError,
     mkWorld (config_yaml w) (stdin w) (config w) (calls w)
             (log w ++ [EvPrint applying_ids_message])%list).
Proof.
  intros Hlen. apply apply_configuration_bad_ip.
  intros tid pid H. apply Hlen.
  destruct (split_on "."%char (ip cfg)) as [|a [|b [|c [|d [|e l]]]]];
    try discriminate H.
  reflexivity.
Qed.

(** X17.  When no line of [config.yaml] holds [team_id] or [player_id],
    [apply_configuration] leaves the file, when it has no carriage
    return, byte for byte as it was, on every path through the network
    steps. *)
Theorem X17_ids_missing_from_file (cfg : WifiConfig) (w : World)
  (tid pid : string) :
  skipn 2 (split_on "."%char (ip cfg)) = [tid; pid] ->
  forallb (fun line => negb (ids_key line)) (lines_read w) = true ->
  has_char CR (config_yaml w) = false ->
  config_yaml (snd (apply_configuration sys CalledProcessError_str cfg w))
  = config_yaml w.
Proof.
  intros Hip Hno Hcr.
  rewrite (apply_configuration_file sys CalledProcessError_str cfg w
             tid pid Hip).
  rewrite (map_rewrite_ids_id tid pid _ Hno).
  unfold lines_read. rewrite (universal_newlines_id _ Hcr).
  apply concat_readlines.
Qed.

End MissingLines.

(** X14 on a file whose role is written without quotes. *)
Lemma X14_unquoted_role_witness :
  configure_purpose (world_of unquoted_yaml ["striker"])
  = (Exc IndexError, world_of unquoted_yaml ["striker"]).
Proof.
  apply (X14_unquoted_role_raises_index_error
           (world_of unquoted_yaml ["striker"])
           ("      player_role: striker" ++ nl));
    reflexivity.
Defined.

(** X15 on a file without the key. *)
Lemma X15_keyless_file_witness :
  configure_purpose (world_of keyless_yaml ["goal_keeper"])
  = (Ret tt,
     mkWorld keyless_yaml [] default_config 0
             [EvPrint "Current purpose: "; EvInput purpose_prompt;
              EvTruncate; EvWrite ("brain:" ++ nl);
              EvWrite ("      rate: 5" ++ nl)]).
Proof.
  apply (X15_role_missing_from_file
           (world_of keyless_yaml ["goal_keeper"]) "goal_keeper" []);
    try reflexivity.
  simpl. tauto.
Defined.

(** X16 on an IP of three octets. *)
Lemma X16_three_octets_witness :
  apply_configuration not_root no_error_text
                      (with_ip default_config "192.168.57")
                      (world_of sample_yaml [])
  = (Exc ValueError,
     mkWorld sample_yaml [] default_config 0
             [EvPrint applying_ids_message]).
Proof.
  apply (X16_ip_without_four_octets_raises
           not_root no_error_text (with_ip default_config "192.168.57")
           (world_of sample_yaml [])).
  simpl. discriminate.
Defined.

(** X17 on a file without the keys, on the host where every network
    step succeeds. *)
Lemma X17_keyless_file_witness :
  config_yaml (snd (apply_configuration provisioned_host no_error_text
                                        default_config
                                        (world_of keyless_yaml [])))
  = keyless_yaml.
Proof.
  apply (X17_ids_missing_from_file
           provisioned_host no_error_text default_config
           (world_of keyless_yaml []) "57" "45");
    reflexivity.
Defined.

(* ===================================================================== *)
(** ** The role is read back as it was written *)
(* ===================================================================== *)

Lemma scan_rewritten_exact (p : string) (lines : list string) (w : World) :
  In p ["striker"; "goal_keeper"] ->
  existsb (contains "player_role") lines = true ->
  scan_current_purpose (map (rewrite_purpose p) lines) w = (Ret p, w).
Proof.
  intros Hp. induction lines as [|line lines IH]; [discriminate|].
  cbn [map existsb]. unfold rewrite_purpose at 1.
  destruct (contains "player_role" line) eqn:H.
  - intros _. destruct Hp as [<-|[<-|[]]]; reflexivity.
  - cbn [orb]. intros Hex. cbn [scan_current_purpose]. rewrite H.
    now apply IH.
Qed.

(** X19.  A role set by [configure_purpose] is the role its next run
    shows.  When some line of [config.yaml] holds [player_role] and one
    of the two roles is typed, the run returns, and the next run, on the
    file as it was left, first prints [Current purpose:] with that role,
    whatever is typed then. *)
Theorem X19_role_written_is_role_read (w : World) (inp inp2 cur : string)
  (rest : list string) :
  stdin w = inp :: inp2 :: rest ->
  fst (scan_current_purpose (lines_read w) w) = Ret cur ->
  existsb (contains "player_role") (lines_read w) = true ->
  In (lower (strip inp)) ["striker"; "goal_keeper"] ->
  let w1 := snd (configure_purpose w) in
  fst (configure_purpose w) = Ret tt
  /\ exists evs : list Event,
       configure_purpose w1
       = (Ret tt,
          mkWorld (config_yaml (snd (configure_purpose w1))) rest
                  (config w) (calls w)
                  (log w1
                   ++ EvPrint ("Current purpose: " ++ lower (strip inp))
                      :: EvInput purpose_prompt :: evs)%list).
Proof.
  intros Hin Hscan Hex Hp w1. subst w1.
  rewrite (configure_purpose_valid w inp cur (inp2 :: rest) Hin Hscan Hp).
  cbn [fst snd]. split; [reflexivity|].
  set (p := lower (strip inp)) in *.
  set (w1 := mkWorld _ _ _ _ _).
  assert (Hlines : lines_read w1 = map (rewrite_purpose p) (lines_read w)).
  { unfold lines_read, w1. cbn [config_yaml].
    apply reread_rewritten;
      [now apply rewrite_purpose_rule | now apply rewrite_purpose_no_cr]. }
  assert (Hscan1 : fst (scan_current_purpose (lines_read w1) w1) = Ret p)
    by (now rewrite Hlines, scan_rewritten_exact).
  assert (Hin1 : stdin w1 = inp2 :: rest) by reflexivity.
  destruct (in_dec string_dec (lower (strip inp2))
                   ["striker"; "goal_keeper"]) as [Hv|Hv].
  - rewrite (configure_purpose_valid w1 inp2 p rest Hin1 Hscan1 Hv).
    cbn [snd config_yaml]. eexists. reflexivity.
  - rewrite (configure_purpose_invalid w1 inp2 p rest Hin1 Hscan1 Hv).
    cbn [snd config_yaml]. eexists. reflexivity.
Qed.

(** X19 on the sample file: [goal_keeper] is typed, then Enter. *)
Lemma X19_goal_keeper_witness :
  fst (configure_purpose role_then_enter) = Ret tt
  /\ exists evs : list Event,
       configure_purpose (snd (configure_purpose role_then_enter))
       = (Ret tt,
          mkWorld (config_yaml
                     (snd (configure_purpose
                             (snd (configure_purpose role_then_enter)))))
                  [] (config role_then_enter) (calls role_then_enter)
                  (log (snd (configure_purpose role_then_enter))
                   ++ EvPrint ("Current purpose: "
                               ++ lower (strip "goal_keeper"))
                      :: EvInput purpose_prompt :: evs)%list).
Proof.
  apply (X19_role_written_is_role_read
           role_then_enter "goal_keeper" "" "striker" []);
    try reflexivity.
  simpl. tauto.
Defined.
